(** * Textinator: detection-and-dispatch pipeline

    A shallow embedding of [src/textinator.py] ([Textinator.process_image],
    [process_screenshot], [initialize_screenshots], [clipboard_watcher],
    [process_clipboard_image], the confidence menu, [load_config] and
    [save_config]), of the parts of [src/macvision.py] that the dispatcher
    calls, of [src/pasteboard.py] ([Pasteboard]) and of
    [utils.get_mac_os_version].

    Modelling choices:
    - Python floats (recognition confidences and the [CONFIDENCE] table) are
      modelled as rationals [Q]; comparison [>=] is [Qle_bool].
    - macOS services (Vision, CIDetector, CIImage loading, symlink
      resolution, the [rumps.alert] dialog) are the fields of a [world]
      record; image handles and NSData handles are opaque [nat]s.
    - The app object is a record [app]; its methods run in a small
      state-and-exception monad [M], so that a Python exception aborts the
      rest of the handler while keeping the mutations already made.
    - [recognition_calls] is an instrumentation trace: every call of the
      recognition backend is appended to it.
    - Values read from the config plist are [pyval]s; how PyObjC converts
      menu states to and from them, and Python's [int()], are parameters. *)

From Stdlib Require Import String Ascii List QArith Bool Lia.
From stdpp Require Import base gmap strings pretty.
Import ListNotations.

Local Open Scope string_scope.

(** ** Strings as Python has them *)

Definition nl_char : ascii := Ascii.ascii_of_nat 10.
Definition nl : string := String nl_char EmptyString.

(** ["\n".join(l)] *)
Definition join_nl (l : list string) : string := String.concat nl l.

(** [text.replace("\n", " ")] *)
Fixpoint replace_nl (text : string) : string :=
  match text with
  | EmptyString => EmptyString
  | String c rest =>
      if Ascii.eqb c nl_char then String " " (replace_nl rest)
      else String c (replace_nl rest)
  end.

(** Python truthiness of a [str]. *)
Definition truthy (s : string) : bool := negb (String.eqb s "").

(** ** The host pasteboard (NSPasteboard.generalPasteboard) *)

Definition image := nat.        (* a Quartz.CIImage handle *)
Definition image_data := nat.   (* an NSData handle *)

Record ns_pasteboard := mk_ns_pasteboard {
  changeCount : nat;
  ns_string : option string;     (* NSPasteboardTypeString *)
  ns_tiff : option image_data;   (* NSPasteboardTypeTIFF *)
  ns_png : option image_data     (* NSPasteboardTypePNG *)
}.

(** [clearContents] empties the pasteboard and increments its change count. *)
Definition clearContents (h : ns_pasteboard) : ns_pasteboard :=
  mk_ns_pasteboard (S (changeCount h)) None None None.

Definition setString_forType (h : ns_pasteboard) (s : string) : ns_pasteboard :=
  mk_ns_pasteboard (changeCount h) (Some s) (ns_tiff h) (ns_png h).

Inductive image_format := PNG | TIFF.

Definition setData_forType (h : ns_pasteboard) (d : image_data) (f : image_format)
  : ns_pasteboard :=
  match f with
  | PNG => mk_ns_pasteboard (changeCount h) (ns_string h) (ns_tiff h) (Some d)
  | TIFF => mk_ns_pasteboard (changeCount h) (ns_string h) (Some d) (ns_png h)
  end.

(** A write by another process: it owns the pasteboard, so the change
    count is incremented. *)
Definition external_write (h : ns_pasteboard) (s : option string)
    (tiff png : option image_data) : ns_pasteboard :=
  mk_ns_pasteboard (S (changeCount h)) s tiff png.

(** ** [class Pasteboard] (src/pasteboard.py) *)

Module Pasteboard.

Record t := mk {
  pasteboard : ns_pasteboard;
  _change_count : nat
}.

(** [__init__] *)
Definition init (h : ns_pasteboard) : t := mk h (changeCount h).

Definition set_text (p : t) (text : string) : t :=
  let h := clearContents (pasteboard p) in
  let h := setString_forType h text in
  mk h (changeCount h).

Definition copy (p : t) (text : string) : t := set_text p text.

(** [stringForType_(NSPasteboardTypeString) or ""] *)
Definition get_text (p : t) : string :=
  match ns_string (pasteboard p) with
  | Some s => s
  | None => ""
  end.

Definition paste (p : t) : string := get_text p.

Definition append (p : t) (text : string) : t :=
  set_text p (get_text p ++ text).

Definition clear (p : t) : t :=
  let h := clearContents (pasteboard p) in
  mk h (changeCount h).

Definition set_image_data (p : t) (d : image_data) (format : image_format) : t :=
  let h := clearContents (pasteboard p) in
  let h := setData_forType h d format in
  mk h (changeCount h).

Definition set_text_and_image_data (p : t) (text : string) (d : image_data)
    (format : image_format) : t :=
  let p := set_image_data p d format in
  let h := setString_forType (pasteboard p) text in
  mk h (changeCount h).

(** [has_changed] returns the flag and the updated object. *)
Definition has_changed (p : t) : bool * t :=
  if Nat.eqb (changeCount (pasteboard p)) (_change_count p) then (false, p)
  else (true, mk (pasteboard p) (changeCount (pasteboard p))).

(** [has_image(format=None)] *)
Definition has_image (p : t) : bool :=
  match ns_tiff (pasteboard p), ns_png (pasteboard p) with
  | None, None => false
  | _, _ => true
  end.

Definition has_text (p : t) : bool :=
  match ns_string (pasteboard p) with Some _ => true | None => false end.

(** [get_image_data(TIFF)]: [dataForType_] answers nil when absent. *)
Definition get_image_data_tiff (p : t) : option image_data :=
  ns_tiff (pasteboard p).

End Pasteboard.

(** ** Settings (the menu items' [.state]) *)

Record settings := mk_settings {
  confidence_low_state : bool;
  confidence_medium_state : bool;
  confidence_high_state : bool;
  recognition_language : string;
  language_english_state : bool;
  detect_clipboard_state : bool;
  qrcodes_state : bool;
  notification_state : bool;
  linebreaks_state : bool;
  append_state : bool;
  confirmation_state : bool
}.

(** [CONFIDENCE = {"LOW": 0.3, "MEDIUM": 0.5, "HIGH": 0.8}] *)
Inductive confidence_level := LOW | MEDIUM | HIGH.

Definition CONFIDENCE (c : confidence_level) : Q :=
  match c with
  | LOW => 3 # 10
  | MEDIUM => 5 # 10
  | HIGH => 8 # 10
  end.

Definition CONFIDENCE_DEFAULT : confidence_level := LOW.

Definition get_confidence_state (s : settings) : confidence_level :=
  if confidence_low_state s then LOW
  else if confidence_medium_state s then MEDIUM
  else if confidence_high_state s then HIGH
  else CONFIDENCE_DEFAULT.

Definition LANGUAGE_ENGLISH : string := "en-US".

(** ** The services the app calls *)

(** One run of [vision_handler.performRequests_error_]: whether the request
    succeeded, whether the completion handler received an error, and the
    observations ([topCandidates_(1)[0]]: string and confidence). *)
Record vision_run := mk_vision_run {
  vr_success : bool;
  vr_handler_error : bool;
  vr_observations : list (string * Q)
}.

Record world := mk_world {
  stringByResolvingSymlinksInPath : string -> string;
  imageWithContentsOfURL : string -> option image;   (* ciimage_from_file *)
  vision : image -> list string -> vision_run;
  qr_features : image -> list string;                (* messageString()s *)
  imageWithData : image_data -> image;
  alert : string -> string -> bool                   (* rumps.alert(title, message) *)
}.

(** ** The app object *)

(** Values of [self._screenshots]: [True] (existed at startup) or a string
    (["__SKIPPED__"] or the detected text). *)
Inductive seen_value := SeenTrue | SeenText (s : string).

Record app := mk_app {
  settings_of : settings;
  _paused : bool;
  _screenshots : gmap string seen_value;
  pasteboard : Pasteboard.t;
  logs : list string;
  notifications : list (string * string * string);
  recognition_calls : list (image * list string)
}.

Definition set_screenshots (st : app) (m : gmap string seen_value) : app :=
  mk_app (settings_of st) (_paused st) m (pasteboard st) (logs st)
    (notifications st) (recognition_calls st).
Definition set_pasteboard (st : app) (p : Pasteboard.t) : app :=
  mk_app (settings_of st) (_paused st) (_screenshots st) p (logs st)
    (notifications st) (recognition_calls st).
Definition add_log (st : app) (msg : string) : app :=
  mk_app (settings_of st) (_paused st) (_screenshots st) (pasteboard st)
    (logs st ++ [msg]) (notifications st) (recognition_calls st).
Definition add_notification (st : app) (n : string * string * string) : app :=
  mk_app (settings_of st) (_paused st) (_screenshots st) (pasteboard st)
    (logs st) (notifications st ++ [n]) (recognition_calls st).
Definition add_recognition_call (st : app) (c : image * list string) : app :=
  mk_app (settings_of st) (_paused st) (_screenshots st) (pasteboard st)
    (logs st) (notifications st) (recognition_calls st ++ [c]).
Definition set_paused (st : app) (b : bool) : app :=
  mk_app (settings_of st) b (_screenshots st) (pasteboard st)
    (logs st) (notifications st) (recognition_calls st).

(** ** State and exception monad *)

Inductive exn := ValueError (msg : string).

Definition M (A : Type) : Type := app -> app * (exn + A).

Definition ret {A} (a : A) : M A := fun st => (st, inr a).
Definition bind {A B} (m : M A) (k : A -> M B) : M B :=
  fun st => match m st with
            | (st', inl e) => (st', inl e)
            | (st', inr a) => k a st'
            end.
Definition raise {A} (e : exn) : M A := fun st => (st, inl e).
Definition get : M app := fun st => (st, inr st).
Definition modify (f : app -> app) : M unit := fun st => (f st, inr tt).

Notation "x <- m ;; k" := (bind m (fun x => k))
  (at level 100, m at next level, right associativity).

Definition log (msg : string) : M unit := modify (fun st => add_log st msg).
Definition notify (title subtitle message : string) : M unit :=
  modify (fun st => add_notification st (title, subtitle, message)).

(** ** src/macvision.py *)

(** [detect_text_in_ciimage(image, languages=languages)] *)
Definition detect_text_in_ciimage (w : world) (img : image) (languages : list string)
  : M (list (string * Q)) :=
  let languages := match languages with [] => ["en-US"] | _ => languages end in
  _ <- modify (fun st => add_recognition_call st (img, languages)) ;;
  let r := vision w img languages in
  (* the completion handler logs an error and appends nothing *)
  _ <- (if vr_handler_error r then log "Error!" else ret tt) ;;
  let results := if vr_handler_error r then [] else vr_observations r in
  if vr_success r then ret results
  else raise (ValueError "Vision request failed").

(** [detect_qrcodes_in_ciimage(image)] *)
Definition detect_qrcodes_in_ciimage (w : world) (img : image) : list string :=
  qr_features w img.

(** ** [Textinator.process_image] *)

Definition languages_for (s : settings) : list string :=
  if language_english_state s
     && negb (String.eqb (recognition_language s) LANGUAGE_ENGLISH)
  then [recognition_language s; LANGUAGE_ENGLISH]
  else [recognition_language s].

(** ["\n".join(result[0] for result in detected_text if result[1] >= confidence)] *)
Definition join_confident (confidence : Q) (detected_text : list (string * Q)) : string :=
  join_nl (map fst (List.filter (fun r => Qle_bool confidence (snd r)) detected_text)).

(** The [if detected_qrcodes := ...] block. *)
Definition add_qrcodes (text : string) (detected_qrcodes : list string) : string :=
  match detected_qrcodes with
  | [] => text
  | _ => if truthy text then text ++ nl ++ join_nl detected_qrcodes
         else join_nl detected_qrcodes
  end.

Definition confirm_title (s : settings) : string :=
  (if append_state s then "Append" else "Copy") ++ " detected text to clipboard?".

Definition copy (text : string) : M unit :=
  modify (fun st => set_pasteboard st (Pasteboard.copy (pasteboard st) text)).

Definition process_image (w : world) (img : image) : M string :=
  st <- get ;;
  let s := settings_of st in
  detected_text <- detect_text_in_ciimage w img (languages_for s) ;;
  let confidence := CONFIDENCE (get_confidence_state s) in
  let text := join_confident confidence detected_text in
  let text := if qrcodes_state s then add_qrcodes text (detect_qrcodes_in_ciimage w img)
              else text in
  if truthy text then
    let text := if linebreaks_state s then text else replace_nl text in
    st <- get ;;
    let clipboard_text :=
      if append_state s then
        let clipboard_text :=
          if Pasteboard.has_text (pasteboard st) then Pasteboard.paste (pasteboard st)
          else "" in
        if truthy clipboard_text then clipboard_text ++ nl ++ text else text
      else text in
    _ <- (if confirmation_state s then
            if alert w (confirm_title s) text then copy clipboard_text else ret tt
          else copy clipboard_text) ;;
    ret text
  else ret text.

(** ** [Textinator.initialize_screenshots] *)

Fixpoint initialize_screenshots (w : world) (results : list string) : M unit :=
  match results with
  | [] => ret tt
  | item :: rest =>
      let path := stringByResolvingSymlinksInPath w item in
      _ <- modify (fun st => set_screenshots st (<[path := SeenTrue]> (_screenshots st))) ;;
      initialize_screenshots w rest
  end.

(** ** [Textinator.process_screenshot] *)

Definition record_screenshot (path : string) (v : seen_value) : M unit :=
  modify (fun st => set_screenshots st (<[path := v]> (_screenshots st))).

Definition detected_message (detected_text : string) : string :=
  if truthy detected_text then "Detected text: " ++ detected_text
  else "No text detected".

(** The body of the [for item in results] loop; [continue] ends it. *)
Definition process_screenshot_item (w : world) (item : string) : M unit :=
  let path := stringByResolvingSymlinksInPath w item in
  st <- get ;;
  match _screenshots st !! path with
  | Some _ => ret tt
  | None =>
      if _paused st then
        _ <- log ("skipping screenshot because app is paused: " ++ path) ;;
        record_screenshot path (SeenText "__SKIPPED__")
      else
        _ <- log ("processing new screenshot: " ++ path) ;;
        match imageWithContentsOfURL w path with
        | None => log ("failed to load screenshot image: " ++ path)
        | Some screenshot_image =>
            detected_text <- process_image w screenshot_image ;;
            _ <- record_screenshot path (SeenText detected_text) ;;
            st <- get ;;
            if notification_state (settings_of st) then
              notify "Processed Screenshot" path (detected_message detected_text)
            else ret tt
        end
  end.

Fixpoint process_screenshot (w : world) (results : list string) : M unit :=
  match results with
  | [] => ret tt
  | item :: rest =>
      _ <- process_screenshot_item w item ;;
      process_screenshot w rest
  end.

(** ** [Textinator.on_pause] *)

Definition on_pause : M unit :=
  modify (fun st => set_paused st (negb (_paused st))).

(** ** [Textinator.process_clipboard_image] and [clipboard_watcher] *)

Definition process_clipboard_image (w : world) : M unit :=
  st <- get ;;
  match Pasteboard.get_image_data_tiff (pasteboard st) with
  | Some image_data =>
      let img := imageWithData w image_data in
      detected_text <- process_image w img ;;
      _ <- log "processed clipboard image" ;;
      st <- get ;;
      if notification_state (settings_of st) then
        notify "Processed Clipboard Image" "" (detected_message detected_text)
      else ret tt
  | None => log "failed to get image data from pasteboard"
  end.

Definition clipboard_watcher (w : world) : M unit :=
  st <- get ;;
  if negb (detect_clipboard_state (settings_of st)) then ret tt
  else
    let (changed, p) := Pasteboard.has_changed (pasteboard st) in
    _ <- modify (fun st => set_pasteboard st p) ;;
    if changed && Pasteboard.has_image p then
      _ <- log "new image on clipboard" ;;
      st <- get ;;
      if _paused st then log "skipping clipboard image because app is paused"
      else process_clipboard_image w
    else ret tt.

(** ** The event loop ([query_updated_], the [rumps.timer], the Pause menu) *)

Inductive event :=
  | QueryDidFinishGathering (results : list string)
  | QueryDidUpdate (results : list string)
  | PauseClicked
  | ClipboardTimer.

Definition dispatch (w : world) (ev : event) : M unit :=
  match ev with
  | QueryDidFinishGathering results => initialize_screenshots w results
  | QueryDidUpdate results => process_screenshot w results
  | PauseClicked => on_pause
  | ClipboardTimer => clipboard_watcher w
  end.

(** Events are handled one at a time on the main run loop.  An exception
    ends its handler; AppKit logs exceptions raised on the main thread and
    the run loop goes on with the next event (NSApplicationCrashOnExceptions
    is off by default), keeping the mutations the handler already made. *)
Fixpoint run_events (evs : list (world * event)) (st : app) : app :=
  match evs with
  | [] => st
  | (w, ev) :: rest => run_events rest (fst (dispatch w ev st))
  end.

(** ** The program's own pasteboard writes *)

Inductive own_mutation :=
  | MSetText (text : string)
  | MCopy (text : string)
  | MAppend (text : string)
  | MClear
  | MSetImageData (d : image_data) (format : image_format)
  | MSetTextAndImageData (text : string) (d : image_data) (format : image_format).

Definition apply_mutation (p : Pasteboard.t) (m : own_mutation) : Pasteboard.t :=
  match m with
  | MSetText text => Pasteboard.set_text p text
  | MCopy text => Pasteboard.copy p text
  | MAppend text => Pasteboard.append p text
  | MClear => Pasteboard.clear p
  | MSetImageData d f => Pasteboard.set_image_data p d f
  | MSetTextAndImageData text d f => Pasteboard.set_text_and_image_data p text d f
  end.

(** Another process writes the pasteboard; the object is not told. *)
Definition external_change (p : Pasteboard.t) (s : option string)
    (tiff png : option image_data) : Pasteboard.t :=
  Pasteboard.mk (external_write (Pasteboard.pasteboard p) s tiff png) (Pasteboard._change_count p).

(** ** Sample inputs *)

Module Sample.

Definition settings0 : settings :=
  mk_settings true false false "en-US" true true false true true false false.

Definition empty_pb : Pasteboard.t :=
  Pasteboard.init (mk_ns_pasteboard 0 None None None).

Definition app0 : app := mk_app settings0 false ∅ empty_pb [] [] [].

Definition world_of (F : list (string * Q)) (qrs : list string) : world :=
  mk_world (fun p => p) (fun _ => Some 1%nat)
    (fun _ _ => mk_vision_run true false F) (fun _ => qrs) (fun d => d)
    (fun _ _ => true).

Definition hello_world : list (string * Q) := [("Hello", 9 # 10); ("World", 85 # 100)].

Definition append_app : app :=
  mk_app (mk_settings true false false "en-US" true true false true true true false)
    false ∅ (Pasteboard.init (mk_ns_pasteboard 3 (Some "A") None None)) [] [] [].

Definition world_B : world := world_of [("B", 9 # 10)] [].

(** Vision answers [("B", 0.9)]; the confirmation dialog is declined. *)
Definition world_decline : world :=
  mk_world (fun p => p) (fun _ => Some 1%nat)
    (fun _ _ => mk_vision_run true false [("B", 9 # 10)]) (fun _ => []) (fun d => d)
    (fun _ _ => false).

Definition confirm_app : app :=
  mk_app (mk_settings true false false "en-US" true true false true true false true)
    false ∅ (Pasteboard.init (mk_ns_pasteboard 3 (Some "A") None None)) [] [] [].

(** The image cannot be loaded. *)
Definition world_noload : world :=
  mk_world (fun p => p) (fun _ => None)
    (fun _ _ => mk_vision_run true false [("B", 9 # 10)]) (fun _ => []) (fun d => d)
    (fun _ _ => true).

(** [performRequests_error_] reports failure. *)
Definition world_fail : world :=
  mk_world (fun p => p) (fun _ => Some 1%nat)
    (fun _ _ => mk_vision_run false false []) (fun _ => []) (fun d => d)
    (fun _ _ => true).

Definition paused_app : app := set_paused app0 true.

(** A TIFF image was put on the clipboard by another process. *)
Definition clip_app : app :=
  mk_app settings0 false ∅
    (Pasteboard.mk (mk_ns_pasteboard 5 None (Some 7%nat) None) 4) [] [] [].

(** QR detection on, threshold LOW. *)
Definition qr_app : app :=
  mk_app (mk_settings true false false "en-US" true true true true true false false)
    false ∅ empty_pb [] [] [].

End Sample.

(** ** Proof support: [process_image] in closed form *)

(** The text after filtering and QR appending, before line-break formatting. *)
Definition pre_text (w : world) (img : image) (s : settings) (F : list (string * Q)) : string :=
  let text := join_confident (CONFIDENCE (get_confidence_state s)) F in
  if qrcodes_state s then add_qrcodes text (detect_qrcodes_in_ciimage w img) else text.

Definition final_text (s : settings) (text : string) : string :=
  if linebreaks_state s then text else replace_nl text.

(** [clipboard_text] as [process_image] computes it. *)
Definition proposed_clipboard (s : settings) (p : Pasteboard.t) (text : string) : string :=
  if append_state s then
    let clipboard_text := if Pasteboard.has_text p then Pasteboard.paste p else "" in
    if truthy clipboard_text then clipboard_text ++ nl ++ text else text
  else text.

(** The state once the recognition backend has answered. *)
Definition after_recognition (w : world) (img : image) (st : app) : app :=
  let langs := languages_for (settings_of st) in
  let st1 := add_recognition_call st (img, langs) in
  if vr_handler_error (vision w img langs) then add_log st1 "Error!" else st1.

Definition recognized (w : world) (img : image) (s : settings) : list (string * Q) :=
  let r := vision w img (languages_for s) in
  if vr_handler_error r then [] else vr_observations r.

(** ** Spec-side definitions *)

(** The numeric value of a confidence threshold, as the spec lists it. *)
Definition spec_threshold (c : confidence_level) : Q :=
  match c with
  | LOW => 3 # 10
  | MEDIUM => 5 # 10
  | HIGH => 8 # 10
  end.

(** The fragments the spec keeps: those with confidence >= t, in backend
    order, duplicates included. *)
Fixpoint spec_kept (t : Q) (F : list (string * Q)) : list (string * Q) :=
  match F with
  | [] => []
  | f :: rest => if Qle_bool t (snd f) then f :: spec_kept t rest else spec_kept t rest
  end.

(** The value the spec commits in append or replace mode. *)
Definition spec_clipboard_value (append_mode : bool) (old new : string) : string :=
  if append_mode then (if String.eqb old "" then new else old ++ nl ++ new) else new.

(** The clipboard text, the empty string when the clipboard holds none. *)
Definition clipboard_text_or_empty (p : Pasteboard.t) : string :=
  match ns_string (Pasteboard.pasteboard p) with Some s => s | None => "" end.

(** The spec's QR step: the text block (when non-empty) and then each
    payload, one per line. *)
Definition spec_qr_lines (text : string) (payloads : list string) : string :=
  join_nl ((if String.eqb text "" then [] else [text]) ++ payloads).

(** An action never removes a key of the screenshot registry. *)
Definition keeps_keys (st st' : app) : Prop :=
  forall k, is_Some (_screenshots st !! k) -> is_Some (_screenshots st' !! k).

Definition keeps {A} (m : M A) : Prop := forall st, keeps_keys st (fst (m st)).

(** ** [class Pasteboard]: the methods that take a format string *)

Inductive pasteboard_error := PasteboardTypeError (msg : string).

Module PasteboardTyped.

(** [format not in (PNG, TIFF)] and [NSPasteboardTypePNG if format == PNG
    else NSPasteboardTypeTIFF] *)
Definition format_type (format : string) : option image_format :=
  if String.eqb format "PNG" then Some PNG
  else if String.eqb format "TIFF" then Some TIFF
  else None.

Definition invalid_format : pasteboard_error :=
  PasteboardTypeError "Invalid format, must be PNG or TIFF".

(** [_has_png], [_has_tiff]: [availableTypeFromArray_] answers the type
    when the pasteboard holds data of it. *)
Definition _has_png (p : Pasteboard.t) : bool :=
  match ns_png (Pasteboard.pasteboard p) with Some _ => true | None => false end.

Definition _has_tiff (p : Pasteboard.t) : bool :=
  match ns_tiff (Pasteboard.pasteboard p) with Some _ => true | None => false end.

(** [get_image_data(format)]; [dataForType_] answers nil ([None]) when
    the type is absent. *)
Definition get_image_data (p : Pasteboard.t) (format : string)
  : pasteboard_error + option image_data :=
  match format_type format with
  | None => inl invalid_format
  | Some PNG =>
      if _has_png p then inr (ns_png (Pasteboard.pasteboard p))
      else inl (PasteboardTypeError "Clipboard does not contain PNG image")
  | Some TIFF => inr (ns_tiff (Pasteboard.pasteboard p))
  end.

(** [set_image_data(image_data, format)]: the format is checked before the
    pasteboard is cleared. *)
Definition set_image_data (p : Pasteboard.t) (d : image_data) (format : string)
  : pasteboard_error + Pasteboard.t :=
  match format_type format with
  | None => inl invalid_format
  | Some f => inr (Pasteboard.set_image_data p d f)
  end.

(** [set_text_and_image_data(text, image_data, format)] *)
Definition set_text_and_image_data (p : Pasteboard.t) (text : string) (d : image_data)
    (format : string) : pasteboard_error + Pasteboard.t :=
  match set_image_data p d format with
  | inl e => inl e
  | inr p =>
      let h := setString_forType (Pasteboard.pasteboard p) text in
      inr (Pasteboard.mk h (changeCount h))
  end.

(** [has_image(format)] *)
Definition has_image (p : Pasteboard.t) (format : option string) : pasteboard_error + bool :=
  match format with
  | None => inr (Pasteboard.has_image p)
  | Some f =>
      if String.eqb f "PNG" then inr (_has_png p)
      else if String.eqb f "TIFF" then inr (_has_tiff p)
      else inl invalid_format
  end.

End PasteboardTyped.

(** ** Python values read from the config plist *)

Inductive pyval := PyBool (b : bool) | PyInt (z : Z) | PyStr (s : string).

#[global] Instance pyval_eq_dec : EqDecision pyval.
Proof. solve_decision. Defined.

(** [str(v)], as an f-string renders it *)
Definition py_str (v : pyval) : string :=
  match v with
  | PyBool true => "True"
  | PyBool false => "False"
  | PyInt z => pretty z
  | PyStr s => s
  end.

(** [v == s] for a [str] literal [s] *)
Definition py_str_eqb (v : pyval) (s : string) : bool :=
  match v with PyStr t => String.eqb t s | _ => false end.

Abbreviation plist := (gmap string pyval).

(** ** The confidence menu ([clear_confidence_state], [set_confidence_state],
    [get_confidence_state]) *)

Definition confidence_name (c : confidence_level) : string :=
  match c with LOW => "LOW" | MEDIUM => "MEDIUM" | HIGH => "HIGH" end.

Definition is_confidence_name (v : pyval) : bool :=
  py_str_eqb v "LOW" || py_str_eqb v "MEDIUM" || py_str_eqb v "HIGH".

Definition with_confidence (s : settings) (low medium high : bool) : settings :=
  mk_settings low medium high (recognition_language s) (language_english_state s)
    (detect_clipboard_state s) (qrcodes_state s) (notification_state s)
    (linebreaks_state s) (append_state s) (confirmation_state s).

Definition clear_confidence_state (s : settings) : settings :=
  with_confidence s false false false.

(** The menu is cleared before the value is checked, so an unknown value
    leaves no threshold checked. *)
Definition set_confidence_state (s : settings) (confidence : pyval) : settings * (exn + unit) :=
  let s := clear_confidence_state s in
  if py_str_eqb confidence "LOW" then
    (with_confidence s true (confidence_medium_state s) (confidence_high_state s), inr tt)
  else if py_str_eqb confidence "MEDIUM" then
    (with_confidence s (confidence_low_state s) true (confidence_high_state s), inr tt)
  else if py_str_eqb confidence "HIGH" then
    (with_confidence s (confidence_low_state s) (confidence_medium_state s) true, inr tt)
  else (s, inl (ValueError ("Unknown confidence threshold: " ++ py_str confidence))).

(** ** The other menu states *)

Definition set_recognition_language (s : settings) (v : string) : settings :=
  mk_settings (confidence_low_state s) (confidence_medium_state s) (confidence_high_state s)
    v (language_english_state s) (detect_clipboard_state s) (qrcodes_state s)
    (notification_state s) (linebreaks_state s) (append_state s) (confirmation_state s).
Definition set_language_english (s : settings) (v : bool) : settings :=
  mk_settings (confidence_low_state s) (confidence_medium_state s) (confidence_high_state s)
    (recognition_language s) v (detect_clipboard_state s) (qrcodes_state s)
    (notification_state s) (linebreaks_state s) (append_state s) (confirmation_state s).
Definition set_detect_clipboard (s : settings) (v : bool) : settings :=
  mk_settings (confidence_low_state s) (confidence_medium_state s) (confidence_high_state s)
    (recognition_language s) (language_english_state s) v (qrcodes_state s)
    (notification_state s) (linebreaks_state s) (append_state s) (confirmation_state s).
Definition set_qrcodes (s : settings) (v : bool) : settings :=
  mk_settings (confidence_low_state s) (confidence_medium_state s) (confidence_high_state s)
    (recognition_language s) (language_english_state s) (detect_clipboard_state s) v
    (notification_state s) (linebreaks_state s) (append_state s) (confirmation_state s).
Definition set_notification (s : settings) (v : bool) : settings :=
  mk_settings (confidence_low_state s) (confidence_medium_state s) (confidence_high_state s)
    (recognition_language s) (language_english_state s) (detect_clipboard_state s)
    (qrcodes_state s) v (linebreaks_state s) (append_state s) (confirmation_state s).
Definition set_linebreaks (s : settings) (v : bool) : settings :=
  mk_settings (confidence_low_state s) (confidence_medium_state s) (confidence_high_state s)
    (recognition_language s) (language_english_state s) (detect_clipboard_state s)
    (qrcodes_state s) (notification_state s) v (append_state s) (confirmation_state s).
Definition set_append (s : settings) (v : bool) : settings :=
  mk_settings (confidence_low_state s) (confidence_medium_state s) (confidence_high_state s)
    (recognition_language s) (language_english_state s) (detect_clipboard_state s)
    (qrcodes_state s) (notification_state s) (linebreaks_state s) v (confirmation_state s).
Definition set_confirmation (s : settings) (v : bool) : settings :=
  mk_settings (confidence_low_state s) (confidence_medium_state s) (confidence_high_state s)
    (recognition_language s) (language_english_state s) (detect_clipboard_state s)
    (qrcodes_state s) (notification_state s) (linebreaks_state s) (append_state s) v.

(** ** [load_config] and [save_config]

    The part of the app they touch: the menu states, [self._debug], the
    [start_on_login] item and [self.config].  The check marks of the
    language submenu ([set_language_menu_state]) and the log lines are not
    modelled.  The config file is read as [None] when it is missing or
    malformed; a plist whose top level is not a dict is not modelled. *)

Record prefs := mk_prefs {
  pr_settings : settings;
  pr_start_on_login : bool;
  pr_debug : pyval;
  pr_config : plist
}.

Section Config.

(** What [item.state] answers once the item's state is set to a [bool]
    (NSMenuItem.state() through PyObjC). *)
Variable state_value : bool -> pyval.
(** The state an item takes when [item.state] is assigned a value that is
    not a [bool]. *)
Variable state_of_other : pyval -> bool.
(** [self.recognition_language] when the config holds a non-[str] language. *)
Variable language_of_other : pyval -> string.

Definition state_in (v : pyval) : bool :=
  match v with PyBool b => b | _ => state_of_other v end.

Definition language_in (v : pyval) : string :=
  match v with PyStr s => s | _ => language_of_other v end.

Definition save_config (pr : prefs) : prefs :=
  let s := pr_settings pr in
  let cfg := pr_config pr in
  let cfg := <["linebreaks" := state_value (linebreaks_state s)]> cfg in
  let cfg := <["append" := state_value (append_state s)]> cfg in
  let cfg := <["notification" := state_value (notification_state s)]> cfg in
  let cfg := <["confidence" := PyStr (confidence_name (get_confidence_state s))]> cfg in
  let cfg := <["language" := PyStr (recognition_language s)]> cfg in
  let cfg := <["always_detect_english" := state_value (language_english_state s)]> cfg in
  let cfg := <["detect_clipboard" := state_value (detect_clipboard_state s)]> cfg in
  let cfg := <["confirmation" := state_value (confirmation_state s)]> cfg in
  let cfg := <["detect_qrcodes" := state_value (qrcodes_state s)]> cfg in
  let cfg := <["debug" := pr_debug pr]> cfg in
  let cfg := <["start_on_login" := state_value (pr_start_on_login pr)]> cfg in
  mk_prefs s (pr_start_on_login pr) (pr_debug pr) cfg.

(** The config written when the file is missing, malformed or empty. *)
Definition default_config (language : string) : plist :=
  list_to_map [
    ("confidence", PyStr (confidence_name CONFIDENCE_DEFAULT));
    ("linebreaks", PyBool true);
    ("append", PyBool false);
    ("notification", PyBool true);
    ("language", PyStr language);
    ("always_detect_english", PyBool true);
    ("detect_qrcodes", PyBool false);
    ("start_on_login", PyBool false);
    ("confirmation", PyBool false);
    ("detect_clipboard", PyBool true)].

(** [self.config.get(key, default)] *)
Definition config_get (cfg : plist) (key : string) (default : pyval) : pyval :=
  match cfg !! key with Some v => v | None => default end.

Definition load_config (file : option plist) (pr : prefs) : prefs * (exn + unit) :=
  let cfg := match file with Some c => c | None => ∅ end in
  let cfg := if decide (cfg = ∅) then default_config (recognition_language (pr_settings pr))
             else cfg in
  let s := pr_settings pr in
  let s := set_append s (state_in (config_get cfg "append" (PyBool false))) in
  let s := set_linebreaks s (state_in (config_get cfg "linebreaks" (PyBool true))) in
  let s := set_notification s (state_in (config_get cfg "notification" (PyBool true))) in
  match set_confidence_state s
          (config_get cfg "confidence" (PyStr (confidence_name CONFIDENCE_DEFAULT))) with
  | (s, inl e) => (mk_prefs s (pr_start_on_login pr) (pr_debug pr) cfg, inl e)
  | (s, inr _) =>
      let s := set_recognition_language s
                 (language_in (config_get cfg "language" (PyStr (recognition_language s)))) in
      let s := set_language_english s
                 (state_in (config_get cfg "always_detect_english" (PyBool true))) in
      let s := set_detect_clipboard s
                 (state_in (config_get cfg "detect_clipboard" (PyBool true))) in
      let s := set_confirmation s (state_in (config_get cfg "confirmation" (PyBool false))) in
      let s := set_qrcodes s (state_in (config_get cfg "detect_qrcodes" (PyBool false))) in
      let debug := config_get cfg "debug" (PyBool false) in
      let start_on_login := state_in (config_get cfg "start_on_login" (PyBool false)) in
      (save_config (mk_prefs s start_on_login debug cfg), inr tt)
  end.


End Config.

(** What a restart must preserve: the threshold, the language and the other
    menu states. *)
Definition prefs_view (pr : prefs)
  : confidence_level * string * list bool * pyval :=
  let s := pr_settings pr in
  (get_confidence_state s, recognition_language s,
   [language_english_state s; detect_clipboard_state s; qrcodes_state s;
    notification_state s; linebreaks_state s; append_state s; confirmation_state s;
    pr_start_on_login pr],
   pr_debug pr).

(** ** [utils.get_mac_os_version] *)

(** [s.split(c)] for a one-character separator *)
Fixpoint split_on (c : ascii) (s : string) : list string :=
  match s with
  | EmptyString => [""]
  | String a rest =>
      if Ascii.eqb a c then "" :: split_on c rest
      else match split_on c rest with
           | x :: xs => String a x :: xs
           | [] => [String a ""]
           end
  end.

(** [platform.mac_ver()[0]] is [mac_ver]; [py_int] is Python's [int()] on
    a [str] ([None]: it raises ValueError).  The message of the arity error
    shows the version string only. *)
Definition get_mac_os_version (py_int : string -> option Z) (mac_ver : string)
  : exn + (string * string * string) :=
  let fix_big_sur (ver major minor : string) :=
    if String.eqb ver "10" then
      match py_int major with
      | None => inl (ValueError ("invalid literal for int() with base 10: " ++ major))
      | Some m =>
          if (16 <=? m)%Z then inr (pretty (11 + m - 16)%Z, minor, "0")
          else inr (ver, major, minor)
      end
    else inr (ver, major, minor) in
  match split_on "." mac_ver with
  | [ver; major] => fix_big_sur ver major "0"
  | [ver; major; minor] => fix_big_sur ver major minor
  | _ => inl (ValueError ("Could not parse version string: " ++ mac_ver))
  end.

(** Python's [int()] on strings of ASCII decimal digits (used by the
    concrete runs). *)
Fixpoint decimal_digits (s : string) (acc : Z) : option Z :=
  match s with
  | EmptyString => Some acc
  | String c rest =>
      let n := Ascii.nat_of_ascii c in
      if (48 <=? n)%nat && (n <=? 57)%nat
      then decimal_digits rest (10 * acc + Z.of_nat (n - 48))%Z
      else None
  end.

Definition decimal_int (s : string) : option Z :=
  match s with EmptyString => None | _ => decimal_digits s 0 end.

(** ** Proof support for the clipboard timer *)

(** The [Pasteboard] object has seen the pasteboard's current change. *)
Definition synced (p : Pasteboard.t) : Prop :=
  Pasteboard._change_count p = changeCount (Pasteboard.pasteboard p).

(** The [Pasteboard] object is in step with the pasteboard, and the
    settings are [s0]. *)
Definition tick_inv (s0 : settings) (st : app) : Prop :=
  synced (pasteboard st) /\ settings_of st = s0.

Definition preserves {A} (P : app -> Prop) (m : M A) : Prop :=
  forall st, P st -> P (fst (m st)).

(** For the concrete runs: NSMenuItem.state() as PyObjC answers it (an
    int), and a menu state set from an int, a str or a bool. *)
Definition sample_state_value (b : bool) : pyval := PyInt (if b then 1 else 0)%Z.
Definition sample_state_of_other (v : pyval) : bool :=
  match v with PyInt z => negb (Z.eqb z 0) | PyStr s => truthy s | PyBool b => b end.

(** * Proofs *)

(** ** Concrete runs *)

Module SampleRuns.
Import Sample.

(** Spec scenario: threshold LOW, keep linebreaks, no append. *)
Example hello_world_run :
  snd (process_image (world_of hello_world []) 1%nat app0)
  = inr ("Hello" ++ nl ++ "World").
Proof. vm_compute. reflexivity. Qed.

Example hello_world_clipboard :
  Pasteboard.get_text (pasteboard (fst (process_image (world_of hello_world []) 1%nat app0)))
  = "Hello" ++ nl ++ "World".
Proof. vm_compute. reflexivity. Qed.

Example screenshot_registry :
  _screenshots (fst (process_screenshot (world_of hello_world []) ["/s.png"] app0))
    !! "/s.png" = Some (SeenText ("Hello" ++ nl ++ "World")).
Proof. vm_compute. reflexivity. Qed.

End SampleRuns.

Lemma languages_for_default (s : settings) :
  match languages_for s with [] => ["en-US"] | _ :: _ => languages_for s end
  = languages_for s.
Proof. unfold languages_for. destruct (_ && _); reflexivity. Qed.

Lemma process_image_eq (w : world) (img : image) (st : app) :
  process_image w img st =
  (let s := settings_of st in
   let st2 := after_recognition w img st in
   if vr_success (vision w img (languages_for s)) then
     let pre := pre_text w img s (recognized w img s) in
     if truthy pre then
       let text := final_text s pre in
       if negb (confirmation_state s) || alert w (confirm_title s) text then
         (set_pasteboard st2 (Pasteboard.copy (pasteboard st)
                                (proposed_clipboard s (pasteboard st) text)), inr text)
       else (st2, inr text)
     else (st2, inr pre)
   else (st2, inl (ValueError "Vision request failed"))).
Proof.
  unfold process_image, detect_text_in_ciimage, after_recognition, recognized,
    pre_text, final_text, proposed_clipboard, bind, get, ret, raise, modify, log, copy.
  cbv zeta. rewrite languages_for_default.
  destruct (vr_handler_error _), (vr_success _); simpl; try reflexivity;
  (destruct (truthy _); [|reflexivity]);
  (destruct (confirmation_state _), (alert _ _ _); reflexivity).
Qed.

Lemma spec_kept_In (t : Q) (F : list (string * Q)) (f : string * Q) :
  In f (spec_kept t F) <-> In f F /\ (t <= snd f)%Q.
Proof.
  induction F as [|g F IH]; simpl.
  - tauto.
  - destruct (Qle_bool t (snd g)) eqn:E; simpl; rewrite IH.
    + apply Qle_bool_iff in E. split.
      * intros [<-|[H1 H2]]; auto.
      * intros [[<-|H1] H2]; auto.
    + split.
      * intros [H1 H2]; auto.
      * intros [[<-|H1] H2]; [|auto].
        apply Qle_bool_iff in H2. congruence.
Qed.

Lemma filter_spec_kept (t : Q) (F : list (string * Q)) :
  List.filter (fun r => Qle_bool t (snd r)) F = spec_kept t F.
Proof. induction F as [|g F IH]; simpl; [reflexivity|]. rewrite IH. reflexivity. Qed.

Lemma CONFIDENCE_spec (c : confidence_level) : CONFIDENCE c = spec_threshold c.
Proof. destruct c; reflexivity. Qed.

(** ** C1 *)

(** C1: for every settings state [s] and recognition result [F], the text
    that [process_image] builds from the fragments is the ["\n"]-join, in
    backend order, of exactly the fragments whose confidence is >= the
    numeric value of the current threshold (LOW 0.3, MEDIUM 0.5, HIGH 0.8);
    a fragment whose confidence equals the threshold is kept. *)
Theorem confidence_filter_exact (s : settings) (F : list (string * Q)) :
  let t := spec_threshold (get_confidence_state s) in
  join_confident (CONFIDENCE (get_confidence_state s)) F
    = join_nl (map fst (spec_kept t F))
  /\ (forall f, In f (spec_kept t F) <-> In f F /\ (t <= snd f)%Q)
  /\ (forall str, In (str, t) F -> In (str, t) (spec_kept t F)).
Proof.
  cbv zeta. split; [|split].
  - unfold join_confident. rewrite CONFIDENCE_spec, filter_spec_kept. reflexivity.
  - intros f. apply spec_kept_In.
  - intros str H. apply spec_kept_In. split; [exact H|]. simpl. apply Qle_refl.
Qed.

(** ** C2 *)

(** C2: whenever [process_image] ends with a non-empty detected text [t]
    and the clipboard is committed (no confirmation asked, or the dialog
    approved), the clipboard text becomes [old ++ "\n" ++ t] in append mode
    when the old clipboard text is non-empty, [t] in append mode when it is
    empty or absent, and [t] when append mode is off. *)
Theorem append_mode_commit (w : world) (img : image) (st st' : app) (t : string) :
  let s := settings_of st in
  process_image w img st = (st', inr t) ->
  t <> "" ->
  confirmation_state s = false \/ alert w (confirm_title s) t = true ->
  ns_string (Pasteboard.pasteboard (pasteboard st'))
    = Some (spec_clipboard_value (append_state s)
              (clipboard_text_or_empty (pasteboard st)) t).
Proof.
  cbv zeta. intros Hrun Hne Hcommit.
  rewrite process_image_eq in Hrun. cbv zeta in Hrun.
  destruct (vr_success _); [|discriminate].
  destruct (truthy (pre_text _ _ _ _)) eqn:Htr; [|injection Hrun as _ <-; unfold truthy in Htr;
     apply negb_false_iff, String.eqb_eq in Htr; congruence].
  destruct (negb _ || alert _ _ _) eqn:Hc.
  - injection Hrun as <- <-. simpl.
    unfold proposed_clipboard, spec_clipboard_value, clipboard_text_or_empty,
      Pasteboard.has_text, Pasteboard.paste, Pasteboard.get_text, truthy.
    destruct (append_state _); [|reflexivity].
    destruct (ns_string _) as [old|]; simpl; [|reflexivity].
    destruct (String.eqb old ""); reflexivity.
  - exfalso. injection Hrun as _ <-.
    destruct Hcommit as [H|H]; rewrite H in Hc;
      [discriminate | rewrite orb_true_r in Hc; discriminate].
Qed.

(** Append "A" then "B" gives "A\nB". *)
Lemma append_mode_commit_witness :
  ns_string (Pasteboard.pasteboard (pasteboard (fst (process_image Sample.world_B 1%nat Sample.append_app))))
    = Some (spec_clipboard_value (append_state (settings_of Sample.append_app))
              (clipboard_text_or_empty (pasteboard Sample.append_app)) "B")
  /\ spec_clipboard_value true "A" "B" = "A" ++ nl ++ "B".
Proof.
  split; [|reflexivity].
  apply (append_mode_commit Sample.world_B 1%nat Sample.append_app _ "B").
  - vm_compute. reflexivity.
  - discriminate.
  - left. reflexivity.
Defined.

(** ** Frame and result lemmas *)

Lemma truthy_final_text (s : settings) (x : string) : truthy (final_text s x) = truthy x.
Proof.
  unfold final_text. destruct (linebreaks_state s), x as [|c x]; try reflexivity.
  simpl. destruct (Ascii.eqb c nl_char); reflexivity.
Qed.

Lemma process_image_frame (w : world) (img : image) (st st' : app) (r : exn + string) :
  process_image w img st = (st', r) ->
  settings_of st' = settings_of st /\ _paused st' = _paused st
  /\ _screenshots st' = _screenshots st /\ notifications st' = notifications st
  /\ recognition_calls st' = (recognition_calls st ++ [(img, languages_for (settings_of st))])%list.
Proof.
  rewrite process_image_eq. unfold after_recognition. cbv zeta. intros H.
  destruct (vr_handler_error _), (vr_success _);
  try (destruct (truthy _)); try (destruct (_ || _));
  injection H as <- _; repeat split.
Qed.

Lemma process_image_pasteboard (w : world) (img : image) (st st' : app) (t : string) :
  let s := settings_of st in
  process_image w img st = (st', inr t) ->
  pasteboard st' =
    if truthy t && (negb (confirmation_state s) || alert w (confirm_title s) t)
    then Pasteboard.copy (pasteboard st) (proposed_clipboard s (pasteboard st) t)
    else pasteboard st.
Proof.
  cbv zeta. rewrite process_image_eq. cbv zeta. intros H.
  assert (Hp : pasteboard (after_recognition w img st) = pasteboard st)
    by (unfold after_recognition; destruct (vr_handler_error _); reflexivity).
  destruct (vr_success _); [|discriminate].
  destruct (truthy (pre_text _ _ _ _)) eqn:Htr.
  - destruct (_ || _) eqn:Hc; injection H as <- <-;
      rewrite truthy_final_text, Htr, Hc; simpl; [reflexivity | exact Hp].
  - injection H as <- <-. rewrite Htr. exact Hp.
Qed.

Lemma process_screenshot_single (w : world) (item : string) (st : app) :
  process_screenshot w [item] st =
  match process_screenshot_item w item st with
  | (st', inl e) => (st', inl e)
  | (st', inr _) => (st', inr tt)
  end.
Proof. simpl. unfold bind, ret. destruct (process_screenshot_item w item st) as [? [?|?]]; reflexivity. Qed.

Lemma process_screenshot_item_eq (w : world) (item : string) (st : app) :
  process_screenshot_item w item st =
  (let path := stringByResolvingSymlinksInPath w item in
   match _screenshots st !! path with
   | Some _ => (st, inr tt)
   | None =>
     if _paused st then
       (set_screenshots (add_log st ("skipping screenshot because app is paused: " ++ path))
          (<[path := SeenText "__SKIPPED__"]> (_screenshots st)), inr tt)
     else
       let st1 := add_log st ("processing new screenshot: " ++ path) in
       match imageWithContentsOfURL w path with
       | None => (add_log st1 ("failed to load screenshot image: " ++ path), inr tt)
       | Some img =>
         match process_image w img st1 with
         | (st2, inl e) => (st2, inl e)
         | (st2, inr t) =>
           let st3 := set_screenshots st2 (<[path := SeenText t]> (_screenshots st2)) in
           if notification_state (settings_of st3) then
             (add_notification st3 ("Processed Screenshot", path, detected_message t), inr tt)
           else (st3, inr tt)
         end
       end
   end).
Proof.
  unfold process_screenshot_item, log, notify, record_screenshot.
  unfold bind, get, ret, modify. cbv zeta. destruct (_screenshots st !! _); [reflexivity|].
  destruct (_paused st); [reflexivity|].
  destruct (imageWithContentsOfURL _ _); [|reflexivity].
  destruct (process_image _ _ _) as [st2 [e|t]]; [reflexivity|].
  destruct (notification_state _); reflexivity.
Qed.

Lemma proposed_clipboard_spec (s : settings) (p : Pasteboard.t) (t : string) :
  proposed_clipboard s p t
  = spec_clipboard_value (append_state s) (clipboard_text_or_empty p) t.
Proof.
  unfold proposed_clipboard, spec_clipboard_value, clipboard_text_or_empty,
    Pasteboard.has_text, Pasteboard.paste, Pasteboard.get_text, truthy.
  destruct (append_state s); [|reflexivity].
  destruct (ns_string _) as [old|]; simpl; [|reflexivity].
  destruct (String.eqb old ""); reflexivity.
Qed.

Lemma truthy_false (t : string) : truthy t = false -> t = "".
Proof. unfold truthy. intros H. apply negb_false_iff, String.eqb_eq in H. exact H. Qed.

Lemma truthy_true (t : string) : t <> "" -> truthy t = true.
Proof.
  unfold truthy. intros H. apply negb_true_iff, String.eqb_neq. exact H.
Qed.

(** ** C5 *)

(** C5: for a new screenshot processed while confirmation is required, the
    registry entry for its identity is the detected text [t] (the text the
    dialog shows); when [t] is non-empty, declining the dialog leaves the
    pasteboard exactly as it was before the event, and approving commits the
    proposed clipboard text (the C2 value). *)
Theorem confirmation_decline_keeps_clipboard (w : world) (item : string) (img : image)
    (st st' : app) :
  let path := stringByResolvingSymlinksInPath w item in
  let s := settings_of st in
  _screenshots st !! path = None ->
  _paused st = false ->
  confirmation_state s = true ->
  imageWithContentsOfURL w path = Some img ->
  process_screenshot w [item] st = (st', inr tt) ->
  exists t, _screenshots st' !! path = Some (SeenText t)
    /\ (t <> "" -> alert w (confirm_title s) t = false -> pasteboard st' = pasteboard st)
    /\ (t <> "" -> alert w (confirm_title s) t = true ->
        ns_string (Pasteboard.pasteboard (pasteboard st'))
          = Some (spec_clipboard_value (append_state s)
                    (clipboard_text_or_empty (pasteboard st)) t)).
Proof.
  cbv zeta. intros Hnew Hpaused Hconf Himg Hrun.
  rewrite process_screenshot_single, process_screenshot_item_eq in Hrun. cbv zeta in Hrun.
  rewrite Hnew, Hpaused, Himg in Hrun.
  destruct (process_image w img _) as [st2 [e|t]] eqn:Hpi; [discriminate|].
  pose proof (process_image_frame _ _ _ _ _ Hpi) as (Hs & _ & _ & _ & _).
  pose proof (process_image_pasteboard _ _ _ _ _ Hpi) as Hpb. simpl in Hs, Hpb.
  assert (Hst' : _screenshots st' = <[stringByResolvingSymlinksInPath w item := SeenText t]>
                                      (_screenshots st2) /\ pasteboard st' = pasteboard st2).
  { destruct (notification_state _); injection Hrun as <-; split; reflexivity. }
  destruct Hst' as [Hreg Hpb'].
  exists t. split; [rewrite Hreg; apply lookup_insert_eq|]. split.
  - intros Hne Hdecl. rewrite Hpb', Hpb, Hconf, Hdecl, truthy_true by exact Hne.
    reflexivity.
  - intros Hne Happ. rewrite Hpb', Hpb, Hconf, Happ, truthy_true by exact Hne.
    simpl. rewrite proposed_clipboard_spec. reflexivity.
Qed.

Lemma confirmation_decline_keeps_clipboard_witness :
  (_screenshots Sample.confirm_app !! "/s.png" = None
   /\ _paused Sample.confirm_app = false
   /\ confirmation_state (settings_of Sample.confirm_app) = true
   /\ imageWithContentsOfURL Sample.world_decline "/s.png" = Some 1%nat)
  /\ exists t,
    _screenshots (fst (process_screenshot Sample.world_decline ["/s.png"] Sample.confirm_app))
      !! "/s.png" = Some (SeenText t)
    /\ (t <> "" -> alert Sample.world_decline (confirm_title (settings_of Sample.confirm_app)) t = false ->
        pasteboard (fst (process_screenshot Sample.world_decline ["/s.png"] Sample.confirm_app))
        = pasteboard Sample.confirm_app)
    /\ (t <> "" -> alert Sample.world_decline (confirm_title (settings_of Sample.confirm_app)) t = true ->
        ns_string (Pasteboard.pasteboard
          (pasteboard (fst (process_screenshot Sample.world_decline ["/s.png"] Sample.confirm_app))))
        = Some (spec_clipboard_value (append_state (settings_of Sample.confirm_app))
                  (clipboard_text_or_empty (pasteboard Sample.confirm_app)) t)).
Proof.
  split; [repeat split; vm_compute; reflexivity|].
  apply (confirmation_decline_keeps_clipboard Sample.world_decline "/s.png" 1%nat
           Sample.confirm_app).
  - vm_compute. reflexivity.
  - reflexivity.
  - reflexivity.
  - reflexivity.
  - vm_compute. reflexivity.
Defined.

(** ** C7 *)

(** C7: when the detected text is empty, [process_image] (shared by the
    screenshot, clipboard and Services paths) leaves the pasteboard object
    untouched; and a new screenshot whose detected text is empty leaves the
    pasteboard untouched and, with notifications on, is reported as
    "No text detected". *)
Theorem empty_text_leaves_clipboard (w : world) (item : string) (st st' : app) :
  let path := stringByResolvingSymlinksInPath w item in
  (forall (img : image) (st0 st0' : app),
      process_image w img st0 = (st0', inr "") -> pasteboard st0' = pasteboard st0)
  /\ (_screenshots st !! path = None ->
      _paused st = false ->
      process_screenshot w [item] st = (st', inr tt) ->
      _screenshots st' !! path = Some (SeenText "") ->
      pasteboard st' = pasteboard st
      /\ (notification_state (settings_of st) = true ->
          notifications st'
            = (notifications st ++ [("Processed Screenshot", path, "No text detected")])%list)).
Proof.
  cbv zeta. split.
  - intros img st0 st0' H. apply process_image_pasteboard in H. exact H.
  - intros Hnew Hpaused Hrun Hreg.
    rewrite process_screenshot_single, process_screenshot_item_eq in Hrun. cbv zeta in Hrun.
    rewrite Hnew, Hpaused in Hrun.
    destruct (imageWithContentsOfURL w _) as [img|].
    + destruct (process_image w img _) as [st2 [e|t]] eqn:Hpi; [discriminate|].
      pose proof (process_image_frame _ _ _ _ _ Hpi) as (Hs & _ & _ & Hn & _).
      pose proof (process_image_pasteboard _ _ _ _ _ Hpi) as Hpb. simpl in Hs, Hn, Hpb.
      destruct (notification_state (settings_of _)) eqn:Hnot;
        injection Hrun as <-; simpl in Hreg, Hnot |- *;
        rewrite lookup_insert_eq in Hreg; injection Hreg as ->;
        rewrite Hpb; simpl; (split; [reflexivity|]).
      * intros _. rewrite Hn. reflexivity.
      * intros H. rewrite Hs in Hnot. congruence.
    + injection Hrun as <-. simpl in Hreg. congruence.
Qed.

Lemma empty_text_leaves_clipboard_witness :
  (_screenshots Sample.app0 !! "/s.png" = None /\ _paused Sample.app0 = false)
  /\ (pasteboard (fst (process_screenshot (Sample.world_of [("x", 1 # 10)] []) ["/s.png"] Sample.app0))
      = pasteboard Sample.app0
      /\ (notification_state (settings_of Sample.app0) = true ->
          notifications (fst (process_screenshot (Sample.world_of [("x", 1 # 10)] []) ["/s.png"] Sample.app0))
          = (notifications Sample.app0
             ++ [("Processed Screenshot", "/s.png", "No text detected")])%list)).
Proof.
  split; [split; vm_compute; reflexivity|].
  apply (proj2 (empty_text_leaves_clipboard (Sample.world_of [("x", 1 # 10)] []) "/s.png"
                  Sample.app0 _)).
  - vm_compute. reflexivity.
  - reflexivity.
  - vm_compute. reflexivity.
  - vm_compute. reflexivity.
Defined.

(** ** C9 *)

(** C9: a new screenshot whose image cannot be loaded is skipped without an
    entry in the registry, without a recognition call and without touching
    the pasteboard; a later notification for the same identity whose image
    loads is processed (the recognition backend is called). *)
Theorem load_failure_not_marked (w : world) (item : string) (st st' : app) (r : exn + unit) :
  let path := stringByResolvingSymlinksInPath w item in
  _screenshots st !! path = None ->
  _paused st = false ->
  imageWithContentsOfURL w path = None ->
  process_screenshot w [item] st = (st', r) ->
  r = inr tt /\ _screenshots st' = _screenshots st
  /\ recognition_calls st' = recognition_calls st /\ pasteboard st' = pasteboard st
  /\ forall (w' : world) (item' : string) (img : image),
       stringByResolvingSymlinksInPath w' item' = path ->
       imageWithContentsOfURL w' path = Some img ->
       recognition_calls (fst (process_screenshot w' [item'] st'))
       = (recognition_calls st ++ [(img, languages_for (settings_of st))])%list.
Proof.
  cbv zeta. intros Hnew Hpaused Hload Hrun.
  rewrite process_screenshot_single, process_screenshot_item_eq in Hrun. cbv zeta in Hrun.
  rewrite Hnew, Hpaused, Hload in Hrun. injection Hrun as <- <-.
  do 4 (split; [reflexivity|]).
  intros w' item' img Hpath Himg.
  rewrite process_screenshot_single, process_screenshot_item_eq. cbv zeta.
  rewrite Hpath. simpl. rewrite Hnew, Hpaused, Himg.
  destruct (process_image w' img _) as [st2 [e|t]] eqn:Hpi;
    pose proof (process_image_frame _ _ _ _ _ Hpi) as (Hs & _ & _ & _ & Hc);
    simpl in Hs, Hc; [exact Hc|].
  destruct (notification_state _); exact Hc.
Qed.

Lemma load_failure_not_marked_witness :
  (_screenshots Sample.app0 !! "/s.png" = None /\ _paused Sample.app0 = false
   /\ imageWithContentsOfURL Sample.world_noload "/s.png" = None)
  /\ snd (process_screenshot Sample.world_noload ["/s.png"] Sample.app0) = inr tt
  /\ _screenshots (fst (process_screenshot Sample.world_noload ["/s.png"] Sample.app0))
     = _screenshots Sample.app0.
Proof.
  split; [repeat split; vm_compute; reflexivity|].
  destruct (load_failure_not_marked Sample.world_noload "/s.png" Sample.app0
              (fst (process_screenshot Sample.world_noload ["/s.png"] Sample.app0))
              (snd (process_screenshot Sample.world_noload ["/s.png"] Sample.app0)))
    as (Hr & Hreg & _).
  - vm_compute. reflexivity.
  - reflexivity.
  - reflexivity.
  - destruct (process_screenshot _ _ _); reflexivity.
  - split; [exact Hr | exact Hreg].
Defined.

(** ** The registry only grows *)

Create HintDb keeps.

Lemma ret_keeps {A} (a : A) : keeps (ret a).
Proof. intros st k H. exact H. Qed.

Lemma get_keeps : keeps get.
Proof. intros st k H. exact H. Qed.

Lemma bind_keeps {A B} (m : M A) (k : A -> M B) :
  keeps m -> (forall a, keeps (k a)) -> keeps (bind m k).
Proof.
  intros Hm Hk st x H. unfold bind. specialize (Hm st x H).
  destruct (m st) as [st1 [e|a]]; simpl in *; [exact Hm | apply Hk, Hm].
Qed.

Lemma log_keeps (msg : string) : keeps (log msg).
Proof. intros st k H. exact H. Qed.

Lemma notify_keeps (a b c : string) : keeps (notify a b c).
Proof. intros st k H. exact H. Qed.

Lemma record_screenshot_keeps (path : string) (v : seen_value) :
  keeps (record_screenshot path v).
Proof.
  intros st k H. simpl. apply lookup_insert_is_Some'. right. exact H.
Qed.

Lemma modify_pasteboard_keeps (f : Pasteboard.t -> Pasteboard.t) :
  keeps (modify (fun st => set_pasteboard st (f (pasteboard st)))).
Proof. intros st k H. exact H. Qed.

Lemma on_pause_keeps : keeps on_pause.
Proof. intros st k H. exact H. Qed.

Lemma process_image_keeps (w : world) (img : image) : keeps (process_image w img).
Proof.
  intros st k H. destruct (process_image w img st) as [st' r] eqn:E.
  apply process_image_frame in E as (_ & _ & Hreg & _). simpl. rewrite Hreg. exact H.
Qed.

#[local] Hint Resolve ret_keeps get_keeps log_keeps notify_keeps record_screenshot_keeps
  modify_pasteboard_keeps on_pause_keeps process_image_keeps : keeps.

Ltac solve_keeps :=
  repeat first [ solve [eauto with keeps] | apply bind_keeps; [|intros ?] | case_match ].

Lemma process_screenshot_item_keeps (w : world) (item : string) :
  keeps (process_screenshot_item w item).
Proof. unfold process_screenshot_item. solve_keeps. Qed.

Lemma process_screenshot_keeps (w : world) (results : list string) :
  keeps (process_screenshot w results).
Proof.
  induction results as [|item rest IH]; simpl;
    [apply ret_keeps | apply bind_keeps; [apply process_screenshot_item_keeps | intros; exact IH]].
Qed.

Lemma initialize_screenshots_keeps (w : world) (results : list string) :
  keeps (initialize_screenshots w results).
Proof.
  induction results as [|item rest IH]; simpl; [apply ret_keeps|].
  apply bind_keeps; [|intros; exact IH].
  intros st k H. simpl. apply lookup_insert_is_Some'. right. exact H.
Qed.

Lemma process_clipboard_image_keeps (w : world) : keeps (process_clipboard_image w).
Proof. unfold process_clipboard_image. solve_keeps. Qed.

#[local] Hint Resolve process_clipboard_image_keeps : keeps.

Lemma clipboard_watcher_keeps (w : world) : keeps (clipboard_watcher w).
Proof.
  unfold clipboard_watcher. apply bind_keeps; [apply get_keeps|intros st].
  destruct (negb _); [apply ret_keeps|].
  destruct (Pasteboard.has_changed _) as [changed p].
  apply bind_keeps; [intros st0 k H; exact H|intros _].
  solve_keeps.
Qed.

Lemma dispatch_keeps (w : world) (ev : event) : keeps (dispatch w ev).
Proof.
  destruct ev; simpl.
  - apply initialize_screenshots_keeps.
  - apply process_screenshot_keeps.
  - apply on_pause_keeps.
  - apply clipboard_watcher_keeps.
Qed.

Lemma run_events_keeps (evs : list (world * event)) (st : app) :
  keeps_keys st (run_events evs st).
Proof.
  revert st. induction evs as [|[w ev] rest IH]; intros st k H; simpl; [exact H|].
  apply IH, dispatch_keeps, H.
Qed.

(** A known identity is ignored: no recognition call, no change at all. *)
Lemma process_screenshot_seen (w : world) (item : string) (st : app) :
  is_Some (_screenshots st !! stringByResolvingSymlinksInPath w item) ->
  process_screenshot w [item] st = (st, inr tt).
Proof.
  intros [v Hv]. rewrite process_screenshot_single, process_screenshot_item_eq.
  cbv zeta. rewrite Hv. reflexivity.
Qed.

(** ** C8 *)

(** C8: a new screenshot arriving while paused is recorded as
    ["__SKIPPED__"], with no recognition call and the pasteboard untouched;
    after any later events (resuming included), a notification for the same
    identity is ignored and changes nothing. *)
Theorem paused_event_skipped (w : world) (item : string) (st st' : app) (r : exn + unit) :
  let path := stringByResolvingSymlinksInPath w item in
  _screenshots st !! path = None ->
  _paused st = true ->
  process_screenshot w [item] st = (st', r) ->
  r = inr tt
  /\ _screenshots st' = <[path := SeenText "__SKIPPED__"]> (_screenshots st)
  /\ recognition_calls st' = recognition_calls st
  /\ pasteboard st' = pasteboard st
  /\ forall (evs : list (world * event)) (w' : world) (item' : string),
       stringByResolvingSymlinksInPath w' item' = path ->
       process_screenshot w' [item'] (run_events evs st') = (run_events evs st', inr tt).
Proof.
  cbv zeta. intros Hnew Hpaused Hrun.
  rewrite process_screenshot_single, process_screenshot_item_eq in Hrun. cbv zeta in Hrun.
  rewrite Hnew, Hpaused in Hrun. injection Hrun as <- <-.
  do 4 (split; [reflexivity|]).
  intros evs w' item' Hpath. apply process_screenshot_seen. rewrite Hpath.
  apply run_events_keeps. simpl. rewrite lookup_insert_eq. eexists. reflexivity.
Qed.

Lemma paused_event_skipped_witness :
  (_screenshots Sample.paused_app !! "/s.png" = None /\ _paused Sample.paused_app = true)
  /\ _screenshots (fst (process_screenshot (Sample.world_of Sample.hello_world [])
                         ["/s.png"] Sample.paused_app))
     = <["/s.png" := SeenText "__SKIPPED__"]> (_screenshots Sample.paused_app)
  /\ (let st' := fst (process_screenshot (Sample.world_of Sample.hello_world [])
                        ["/s.png"] Sample.paused_app) in
      let stR := run_events [(Sample.world_of Sample.hello_world [], PauseClicked)] st' in
      process_screenshot (Sample.world_of Sample.hello_world []) ["/s.png"] stR = (stR, inr tt)).
Proof.
  split; [split; vm_compute; reflexivity|].
  destruct (paused_event_skipped (Sample.world_of Sample.hello_world []) "/s.png"
              Sample.paused_app
              (fst (process_screenshot (Sample.world_of Sample.hello_world [])
                      ["/s.png"] Sample.paused_app))
              (snd (process_screenshot (Sample.world_of Sample.hello_world [])
                      ["/s.png"] Sample.paused_app)))
    as (_ & Hreg & _ & _ & Hlater).
  - vm_compute. reflexivity.
  - reflexivity.
  - destruct (process_screenshot _ _ _); reflexivity.
  - split; [exact Hreg|]. cbv zeta.
    apply (Hlater [(Sample.world_of Sample.hello_world [], PauseClicked)]). reflexivity.
Defined.

(** ** C6 *)

Lemma add_qrcodes_spec (text : string) (payloads : list string) :
  add_qrcodes text payloads = spec_qr_lines text payloads.
Proof.
  unfold add_qrcodes, spec_qr_lines, truthy.
  destruct (String.eqb text "") eqn:E; simpl.
  - apply String.eqb_eq in E. subst. destruct payloads; reflexivity.
  - destruct payloads as [|q qs]; reflexivity.
Qed.

Lemma join_confident_spec (s : settings) (F : list (string * Q)) :
  join_confident (CONFIDENCE (get_confidence_state s)) F
  = join_nl (map fst (spec_kept (spec_threshold (get_confidence_state s)) F)).
Proof. unfold join_confident. rewrite CONFIDENCE_spec, filter_spec_kept. reflexivity. Qed.

(** C6: with QR detection on, the text built from the surviving fragments
    is followed by the QR payloads, each on its own line and separated from
    the text block by one ["
"]; no payload leaves the text alone; an empty
    text block leaves the payloads alone, so payloads ["X"; "Y"] give
    ["X
Y"].  Line-break formatting applies to that result afterwards. *)
Theorem qr_block_appended (w : world) (img : image) (st st' : app) (t : string) :
  let s := settings_of st in
  let text := join_nl (map fst (spec_kept (spec_threshold (get_confidence_state s))
                                  (recognized w img s))) in
  qrcodes_state s = true ->
  process_image w img st = (st', inr t) ->
  t = final_text s (spec_qr_lines text (qr_features w img))
  /\ (linebreaks_state s = true -> t = spec_qr_lines text (qr_features w img))
  /\ (qr_features w img = [] -> linebreaks_state s = true -> t = text)
  /\ (text = "" -> qr_features w img = ["X"; "Y"] -> linebreaks_state s = true ->
      t = "X" ++ nl ++ "Y").
Proof.
  cbv zeta. intros Hqr Hrun.
  assert (Ht : t = final_text (settings_of st)
                     (pre_text w img (settings_of st) (recognized w img (settings_of st)))).
  { rewrite process_image_eq in Hrun. cbv zeta in Hrun.
    destruct (vr_success _); [|discriminate].
    destruct (truthy _) eqn:Htr.
    - destruct (_ || _); injection Hrun as _ <-; reflexivity.
    - injection Hrun as _ <-. apply truthy_false in Htr. rewrite Htr.
      unfold final_text. destruct (linebreaks_state _); reflexivity. }
  unfold pre_text in Ht. rewrite Hqr, join_confident_spec, add_qrcodes_spec in Ht.
  unfold detect_qrcodes_in_ciimage in Ht.
  split; [exact Ht|]. split; [|split].
  - intros Hlb. rewrite Ht. unfold final_text. rewrite Hlb. reflexivity.
  - intros Hnone Hlb. rewrite Ht. unfold final_text. rewrite Hlb, Hnone.
    unfold spec_qr_lines. rewrite app_nil_r.
    destruct (String.eqb _ "") eqn:E; [apply String.eqb_eq in E; rewrite E|]; reflexivity.
  - intros Hempty Hxy Hlb. rewrite Ht. unfold final_text. rewrite Hlb, Hxy, Hempty.
    reflexivity.
Qed.

Lemma qr_block_appended_witness :
  qrcodes_state (settings_of Sample.qr_app) = true
  /\ snd (process_image (Sample.world_of [("low", 1 # 10)] ["X"; "Y"]) 1%nat Sample.qr_app)
     = inr ("X" ++ nl ++ "Y").
Proof.
  split; [reflexivity|].
  destruct (process_image (Sample.world_of [("low", 1 # 10)] ["X"; "Y"]) 1%nat Sample.qr_app)
    as [st' [e|t]] eqn:E; [vm_compute in E; discriminate|].
  destruct (qr_block_appended (Sample.world_of [("low", 1 # 10)] ["X"; "Y"]) 1%nat
              Sample.qr_app st' t) as (_ & _ & _ & Hxy).
  - reflexivity.
  - exact E.
  - simpl. f_equal. apply Hxy; vm_compute; reflexivity.
Defined.

(** ** C10 *)

Lemma own_mutation_synced (p : Pasteboard.t) (m : own_mutation) :
  Pasteboard._change_count (apply_mutation p m)
  = changeCount (Pasteboard.pasteboard (apply_mutation p m)).
Proof. destruct m as [| | | |d f|t d f]; try destruct f; reflexivity. Qed.

Lemma has_changed_synced (p : Pasteboard.t) :
  Pasteboard._change_count p = changeCount (Pasteboard.pasteboard p) ->
  Pasteboard.has_changed p = (false, p).
Proof.
  intros H. unfold Pasteboard.has_changed. rewrite H, Nat.eqb_refl. reflexivity.
Qed.

Lemma has_changed_unsynced (p : Pasteboard.t) :
  Nat.eqb (changeCount (Pasteboard.pasteboard p)) (Pasteboard._change_count p) = false ->
  Pasteboard.has_changed p
  = (true, Pasteboard.mk (Pasteboard.pasteboard p) (changeCount (Pasteboard.pasteboard p))).
Proof. intros H. unfold Pasteboard.has_changed. rewrite H. reflexivity. Qed.

(** C10: each write the program makes (set_text, copy, append, clear,
    set_image_data, set_text_and_image_data) stores the pasteboard's
    current change count, so the next [has_changed] answers false and the
    clipboard watcher then does nothing; [has_changed] answers true once
    after a change by another process and false again until the next one. *)
Theorem own_writes_not_seen_as_changes :
  (forall (p : Pasteboard.t) (m : own_mutation),
      Pasteboard.has_changed (apply_mutation p m) = (false, apply_mutation p m))
  /\ (forall (w : world) (st : app) (p : Pasteboard.t) (m : own_mutation),
      clipboard_watcher w (set_pasteboard st (apply_mutation p m))
      = (set_pasteboard st (apply_mutation p m), inr tt))
  /\ (forall (p : Pasteboard.t) (s : option string) (tiff png : option image_data),
      let p1 := snd (Pasteboard.has_changed p) in
      let p2 := external_change p1 s tiff png in
      fst (Pasteboard.has_changed p2) = true
      /\ fst (Pasteboard.has_changed (snd (Pasteboard.has_changed p2))) = false).
Proof.
  split; [|split].
  - intros p m. apply has_changed_synced, own_mutation_synced.
  - intros w st p m. unfold clipboard_watcher, bind, get, ret, modify.
    destruct (negb _); [reflexivity|].
    rewrite has_changed_synced by apply own_mutation_synced. reflexivity.
  - intros p s tiff png. cbv zeta.
    assert (Hp1 : Pasteboard._change_count (snd (Pasteboard.has_changed p))
                  = changeCount (Pasteboard.pasteboard (snd (Pasteboard.has_changed p)))).
    { unfold Pasteboard.has_changed.
      destruct (Nat.eqb _ _) eqn:E; [apply Nat.eqb_eq in E; symmetry; exact E|reflexivity]. }
    revert Hp1. generalize (snd (Pasteboard.has_changed p)) as p1. intros [h c] Hc.
    simpl in Hc. subst c.
    rewrite has_changed_unsynced.
    + split; [reflexivity|]. simpl. rewrite has_changed_synced; reflexivity.
    + unfold external_change, external_write. cbn [Pasteboard.pasteboard Pasteboard._change_count changeCount].
      apply Nat.eqb_neq. lia.
Qed.

(** ** C4 *)

(** C4 (defect): when the Vision request fails, [detect_text_in_ciimage]
    raises [ValueError] and [process_image] does not catch it: the
    screenshot handler ends with the exception, the identity is not
    recorded and no "no text detected" outcome is produced.  The pasteboard
    is left untouched. *)
Theorem recognition_failure_propagates (w : world) (item : string) (img : image) (st : app) :
  let path := stringByResolvingSymlinksInPath w item in
  _screenshots st !! path = None ->
  _paused st = false ->
  imageWithContentsOfURL w path = Some img ->
  vr_success (vision w img (languages_for (settings_of st))) = false ->
  exists st', process_screenshot w [item] st = (st', inl (ValueError "Vision request failed"))
    /\ _screenshots st' !! path = None /\ pasteboard st' = pasteboard st.
Proof.
  cbv zeta. intros Hnew Hpaused Himg Hfail.
  rewrite process_screenshot_single, process_screenshot_item_eq. cbv zeta.
  rewrite Hnew, Hpaused, Himg, process_image_eq. cbv zeta. simpl. rewrite Hfail.
  eexists. split; [reflexivity|].
  unfold after_recognition. simpl.
  destruct (vr_handler_error _); simpl; split; assumption || reflexivity.
Qed.

Lemma recognition_failure_propagates_witness :
  (_screenshots Sample.app0 !! "/s.png" = None /\ _paused Sample.app0 = false
   /\ imageWithContentsOfURL Sample.world_fail "/s.png" = Some 1%nat)
  /\ exists st', process_screenshot Sample.world_fail ["/s.png"] Sample.app0
                 = (st', inl (ValueError "Vision request failed"))
    /\ _screenshots st' !! "/s.png" = None /\ pasteboard st' = pasteboard Sample.app0.
Proof.
  split; [repeat split; vm_compute; reflexivity|].
  apply (recognition_failure_propagates Sample.world_fail "/s.png" 1%nat Sample.app0).
  - vm_compute. reflexivity.
  - reflexivity.
  - reflexivity.
  - reflexivity.
Defined.

(** The clipboard path propagates the same exception. *)
Example clipboard_failure_propagates :
  snd (clipboard_watcher Sample.world_fail Sample.clip_app)
  = inl (ValueError "Vision request failed").
Proof. vm_compute. reflexivity. Qed.

(** ** C3 *)

(** C3 (defect, same cause as C4): two update notifications for the same
    screenshot while the Vision request fails call the recognition backend
    twice for that identity, which is never recorded in the registry. *)
Theorem screenshot_recognized_twice :
  let st := run_events [(Sample.world_fail, QueryDidUpdate ["/s.png"]);
                        (Sample.world_fail, QueryDidUpdate ["/s.png"])] Sample.app0 in
  recognition_calls st = [(1%nat, ["en-US"]); (1%nat, ["en-US"])]
  /\ _screenshots st !! "/s.png" = None.
Proof. vm_compute. split; reflexivity. Qed.

(** ** More of the program *)

(** *** [class Pasteboard] *)

(** [set_text] replaces everything on the pasteboard: the text reads back,
    images are gone, and the change count moves by one. *)
Theorem set_text_round_trip (p : Pasteboard.t) (text : string) :
  let p' := Pasteboard.set_text p text in
  Pasteboard.get_text p' = text /\ Pasteboard.has_text p' = true
  /\ Pasteboard.has_image p' = false
  /\ changeCount (Pasteboard.pasteboard p') = S (changeCount (Pasteboard.pasteboard p)).
Proof. repeat split. Qed.

(** [append] adds the text with no separator, and drops any image. *)
Theorem append_concatenates (p : Pasteboard.t) (text : string) :
  let p' := Pasteboard.append p text in
  Pasteboard.get_text p' = clipboard_text_or_empty p ++ text
  /\ Pasteboard.has_image p' = false.
Proof. split; reflexivity. Qed.

(** [clear] leaves neither text nor image: [get_text] answers [""], a PNG
    read raises, a TIFF read answers nil, and the object does not report
    its own clearing as a change. *)
Theorem clear_empties (p : Pasteboard.t) :
  let p' := Pasteboard.clear p in
  Pasteboard.get_text p' = "" /\ Pasteboard.has_text p' = false
  /\ Pasteboard.has_image p' = false
  /\ PasteboardTyped.get_image_data p' "PNG"
     = inl (PasteboardTypeError "Clipboard does not contain PNG image")
  /\ PasteboardTyped.get_image_data p' "TIFF" = inr None
  /\ fst (Pasteboard.has_changed p') = false.
Proof. cbv zeta. unfold Pasteboard.has_changed. simpl. rewrite Nat.eqb_refl. repeat split. Qed.

Lemma format_type_Some (format : string) (f : image_format) :
  PasteboardTyped.format_type format = Some f ->
  format = match f with PNG => "PNG" | TIFF => "TIFF" end.
Proof.
  unfold PasteboardTyped.format_type.
  destruct (String.eqb_spec format "PNG"); [intros [= <-]; assumption|].
  destruct (String.eqb_spec format "TIFF"); [intros [= <-]; assumption|discriminate].
Qed.

Lemma format_type_None (format : string) :
  PasteboardTyped.format_type format = None <-> format <> "PNG" /\ format <> "TIFF".
Proof.
  unfold PasteboardTyped.format_type.
  destruct (String.eqb_spec format "PNG"); [subst; split; [discriminate|tauto]|].
  destruct (String.eqb_spec format "TIFF"); [subst; split; [discriminate|tauto]|].
  tauto.
Qed.

(** [get_image_data]: the invalid-format error is raised exactly for
    formats other than "PNG" and "TIFF"; a PNG read never answers nil (it
    raises when there is no PNG); a TIFF read never raises and answers the
    TIFF data, nil when absent. *)
Theorem get_image_data_behaviour (p : Pasteboard.t) (format : string) :
  (PasteboardTyped.get_image_data p format = inl PasteboardTyped.invalid_format
   <-> format <> "PNG" /\ format <> "TIFF")
  /\ PasteboardTyped.get_image_data p "PNG" <> inr None
  /\ PasteboardTyped.get_image_data p "TIFF" = inr (Pasteboard.get_image_data_tiff p).
Proof.
  split; [|split].
  - rewrite <- format_type_None. unfold PasteboardTyped.get_image_data.
    destruct (PasteboardTyped.format_type format) as [[|]|]; [| |tauto].
    + destruct (PasteboardTyped._has_png p); split; discriminate.
    + split; discriminate.
  - unfold PasteboardTyped.get_image_data, PasteboardTyped._has_png. simpl.
    destruct (ns_png _); discriminate.
  - reflexivity.
Qed.

(** [set_image_data] with a valid format stores the data so that reading
    the same format gives it back, with no text left; with any other
    format it raises the invalid-format error. *)
Theorem set_image_data_round_trip (p : Pasteboard.t) (d : image_data) (format : string) :
  match PasteboardTyped.set_image_data p d format with
  | inr p' =>
      (format = "PNG" \/ format = "TIFF")
      /\ PasteboardTyped.get_image_data p' format = inr (Some d)
      /\ Pasteboard.has_image p' = true /\ Pasteboard.has_text p' = false
      /\ PasteboardTyped.has_image p' (Some format) = inr true
  | inl e => e = PasteboardTyped.invalid_format /\ format <> "PNG" /\ format <> "TIFF"
  end.
Proof.
  unfold PasteboardTyped.set_image_data.
  destruct (PasteboardTyped.format_type format) as [f|] eqn:E.
  - apply format_type_Some in E. destruct f; subst format; repeat split; auto.
  - apply format_type_None in E. split; [reflexivity|exact E].
Qed.

(** [set_text_and_image_data] with a valid format leaves both the text and
    the image readable, and the object does not report its own write as a
    change; with any other format it raises before touching the pasteboard. *)
Theorem set_text_and_image_data_round_trip (p : Pasteboard.t) (text : string)
    (d : image_data) (format : string) :
  match PasteboardTyped.set_text_and_image_data p text d format with
  | inr p' =>
      Pasteboard.get_text p' = text
      /\ PasteboardTyped.get_image_data p' format = inr (Some d)
      /\ fst (Pasteboard.has_changed p') = false
  | inl e => e = PasteboardTyped.invalid_format /\ format <> "PNG" /\ format <> "TIFF"
  end.
Proof.
  unfold PasteboardTyped.set_text_and_image_data, PasteboardTyped.set_image_data.
  destruct (PasteboardTyped.format_type format) as [f|] eqn:E.
  - apply format_type_Some in E.
    unfold Pasteboard.has_changed. simpl. rewrite Nat.eqb_refl.
    destruct f; subst format; repeat split.
  - apply format_type_None in E. split; [reflexivity|exact E].
Qed.

(** *** The recognition languages of [process_image] *)

(** The configured language comes first, English is added at most once,
    and English is asked for exactly when "Always detect English" is on or
    English is the configured language. *)
Theorem languages_for_shape (s : settings) :
  hd_error (languages_for s) = Some (recognition_language s)
  /\ List.NoDup (languages_for s)
  /\ (In LANGUAGE_ENGLISH (languages_for s)
      <-> language_english_state s = true \/ recognition_language s = LANGUAGE_ENGLISH).
Proof.
  unfold languages_for.
  destruct (language_english_state s) eqn:Ee;
  destruct (String.eqb_spec (recognition_language s) LANGUAGE_ENGLISH) as [Eq|Ne];
  simpl; (split; [reflexivity|]);
  (split; [repeat (constructor; [simpl; intuition congruence|]); constructor|]);
  simpl; intuition congruence.
Qed.

(** *** Line breaks off *)

Lemma replace_nl_no_nl (x : string) (n : nat) : String.get n (replace_nl x) <> Some nl_char.
Proof.
  revert n. induction x as [|c x IH]; intros n; simpl; [discriminate|].
  destruct (Ascii.eqb_spec c nl_char) as [->|Hc]; destruct n; simpl; auto;
  intros E; injection E as E;
  first [exact (Hc E) | revert E; vm_compute; intros E'; inversion E'].
Qed.

Lemma replace_nl_length (x : string) : String.length (replace_nl x) = String.length x.
Proof.
  induction x as [|c x IH]; simpl; [reflexivity|].
  destruct (Ascii.eqb c nl_char); simpl; rewrite IH; reflexivity.
Qed.

(** With "Keep linebreaks" off, the text [process_image] returns (and
    copies) contains no newline, and it is as long as the text before
    formatting: each newline became one space. *)
Theorem linebreaks_off_no_newline (w : world) (img : image) (st st' : app) (t : string) :
  process_image w img st = (st', inr t) ->
  linebreaks_state (settings_of st) = false ->
  (forall n, String.get n t <> Some nl_char)
  /\ String.length t
     = String.length (pre_text w img (settings_of st) (recognized w img (settings_of st))).
Proof.
  rewrite process_image_eq. cbv zeta. intros H Hl.
  destruct (vr_success _); [|discriminate].
  destruct (truthy (pre_text _ _ _ _)) eqn:Ht.
  - assert (Hf : t = final_text (settings_of st)
                       (pre_text w img (settings_of st) (recognized w img (settings_of st)))).
    { destruct (_ || _); injection H as _ <-; reflexivity. }
    subst t. unfold final_text. rewrite Hl.
    split; [apply replace_nl_no_nl|apply replace_nl_length].
  - injection H as _ <-. apply truthy_false in Ht. rewrite Ht.
    split; [intros n; destruct n; discriminate|reflexivity].
Qed.

(** *** The confidence menu *)

(** Setting a threshold by its name checks exactly that item, and reading
    the state back gives the threshold. *)
Theorem set_confidence_state_round_trip (s : settings) (c : confidence_level) :
  let (s', r) := set_confidence_state s (PyStr (confidence_name c)) in
  r = inr tt /\ get_confidence_state s' = c
  /\ (confidence_low_state s' = true <-> c = LOW)
  /\ (confidence_medium_state s' = true <-> c = MEDIUM)
  /\ (confidence_high_state s' = true <-> c = HIGH).
Proof. destruct c; simpl; repeat split; intros H; discriminate H. Qed.

(** Any other value raises ValueError after the menu was cleared: no
    threshold is checked any more, so the threshold in use falls back to
    LOW whatever it was before. *)
Theorem set_confidence_state_unknown (s : settings) (v : pyval) :
  is_confidence_name v = false ->
  let (s', r) := set_confidence_state s v in
  (exists msg, r = inl (ValueError msg))
  /\ confidence_low_state s' = false /\ confidence_medium_state s' = false
  /\ confidence_high_state s' = false /\ get_confidence_state s' = LOW.
Proof.
  unfold is_confidence_name, set_confidence_state. intros H.
  apply orb_false_elim in H as [H H3]. apply orb_false_elim in H as [H1 H2].
  rewrite H1, H2, H3. repeat split. eexists. reflexivity.
Qed.

(** *** [utils.get_mac_os_version] *)

(** Unless the version string has two or three dot-separated parts, the
    function raises ValueError; this includes the empty string that
    [platform.mac_ver()] gives off macOS. *)
Theorem mac_os_version_arity (py_int : string -> option Z) (mac_ver : string) :
  length (split_on "." mac_ver) <> 2%nat ->
  length (split_on "." mac_ver) <> 3%nat ->
  exists msg, get_mac_os_version py_int mac_ver = inl (ValueError msg).
Proof.
  unfold get_mac_os_version. intros H2 H3.
  destruct (split_on "." mac_ver) as [|a [|b [|c [|d l]]]]; simpl in *;
    try (exfalso; lia); eexists; reflexivity.
Qed.

Lemma pretty_Z_10 (z : Z) : (11 <= z)%Z -> pretty z <> "10".
Proof.
  intros Hz E. change "10" with (pretty 10%Z) in E.
  apply (inj pretty) in E. lia.
Qed.

(** The Big Sur fix: when Python reports "10.M" or "10.M.m" with M >= 16,
    the result is (str(M - 5), m or "0", "0"), so it never reports major
    version "10" for these systems. *)
Theorem mac_os_version_big_sur (py_int : string -> option Z) (mac_ver major minor : string)
    (m : Z) :
  (split_on "." mac_ver = ["10"; major] \/ split_on "." mac_ver = ["10"; major; minor]) ->
  py_int major = Some m ->
  (16 <= m)%Z ->
  exists v, get_mac_os_version py_int mac_ver = inr v
  /\ fst (fst v) = pretty (m - 5)%Z
  /\ fst (fst v) <> "10"
  /\ (split_on "." mac_ver = ["10"; major] -> snd (fst v) = "0")
  /\ (split_on "." mac_ver = ["10"; major; minor] -> snd (fst v) = minor)
  /\ snd v = "0".
Proof.
  intros Hs Hm H16. unfold get_mac_os_version.
  assert (Hp : pretty (11 + m - 16)%Z = pretty (m - 5)%Z) by (f_equal; lia).
  assert (H10 : pretty (m - 5)%Z <> "10") by (apply pretty_Z_10; lia).
  assert (Hle : (16 <=? m)%Z = true) by (apply Z.leb_le; lia).
  destruct Hs as [Hs|Hs]; rewrite Hs; simpl; rewrite Hm, Hle;
    eexists; (split; [reflexivity|]); simpl; rewrite Hp;
    repeat split; try assumption; intros E; try reflexivity; discriminate E.
Qed.

(** Any other two- or three-part version is returned as split, with minor
    "0" for two parts; [int()] is applied to the major part only when the
    version is "10". *)
Theorem mac_os_version_passthrough (py_int : string -> option Z)
    (mac_ver ver major minor : string) :
  (ver <> "10" \/ exists m, py_int major = Some m /\ (m < 16)%Z) ->
  (split_on "." mac_ver = [ver; major] ->
     get_mac_os_version py_int mac_ver = inr (ver, major, "0"))
  /\ (split_on "." mac_ver = [ver; major; minor] ->
     get_mac_os_version py_int mac_ver = inr (ver, major, minor)).
Proof.
  intros H. unfold get_mac_os_version.
  split; intros Hs; rewrite Hs;
  (destruct (String.eqb_spec ver "10") as [->|Hv]; [|reflexivity]);
  (destruct H as [H|[m [Hm Hlt]]]; [congruence|]);
  rewrite Hm; destruct (Z.leb_spec 16 m); [lia|reflexivity|lia|reflexivity].
Qed.

(** *** Screenshots present at startup *)

Lemma set_screenshots_twice (st : app) (m m' : gmap string seen_value) :
  set_screenshots (set_screenshots st m) m' = set_screenshots st m'.
Proof. reflexivity. Qed.

Lemma initialize_screenshots_eq (w : world) (results : list string) (st : app) :
  initialize_screenshots w results st =
  (set_screenshots st
     (fold_left (fun m i => <[stringByResolvingSymlinksInPath w i := SeenTrue]> m)
        results (_screenshots st)), inr tt).
Proof.
  revert st. induction results as [|i rest IH]; intros st; simpl.
  - destruct st; reflexivity.
  - unfold bind, modify. rewrite IH. reflexivity.
Qed.

Lemma fold_seen_true_keep (w : world) (results : list string) (m : gmap string seen_value)
    (k : string) :
  m !! k = Some SeenTrue ->
  fold_left (fun m i => <[stringByResolvingSymlinksInPath w i := SeenTrue]> m) results m !! k
  = Some SeenTrue.
Proof.
  revert m. induction results as [|i rest IH]; intros m H; simpl; [exact H|].
  apply IH. destruct (decide (stringByResolvingSymlinksInPath w i = k)) as [<-|Hne].
  - apply lookup_insert_eq.
  - rewrite lookup_insert_ne by exact Hne. exact H.
Qed.

Lemma fold_seen_true_In (w : world) (results : list string) (m : gmap string seen_value)
    (i : string) :
  In i results ->
  fold_left (fun m i => <[stringByResolvingSymlinksInPath w i := SeenTrue]> m) results m
    !! stringByResolvingSymlinksInPath w i = Some SeenTrue.
Proof.
  revert m. induction results as [|j rest IH]; intros m Hin; simpl in *; [contradiction|].
  destruct Hin as [->|Hin]; [|apply IH, Hin].
  apply fold_seen_true_keep, lookup_insert_eq.
Qed.

Lemma process_screenshot_all_seen (w : world) (items : list string) (st : app) :
  (forall i, In i items -> is_Some (_screenshots st !! stringByResolvingSymlinksInPath w i)) ->
  process_screenshot w items st = (st, inr tt).
Proof.
  induction items as [|i rest IH]; intros H; simpl; [reflexivity|].
  unfold bind. rewrite process_screenshot_item_eq. cbv zeta.
  destruct (H i (or_introl eq_refl)) as [v Hv]. rewrite Hv.
  apply IH. intros j Hj. apply H. right. exact Hj.
Qed.

(** [initialize_screenshots] marks every listed screenshot as seen
    ([True]) and touches nothing else; a later update notification that
    lists any of them again processes none of them: the state is left as
    it is. *)
Theorem startup_screenshots_never_processed (w : world) (results items : list string)
    (st : app) :
  (forall i, In i items -> In i results) ->
  let st1 := fst (initialize_screenshots w results st) in
  snd (initialize_screenshots w results st) = inr tt
  /\ pasteboard st1 = pasteboard st /\ recognition_calls st1 = recognition_calls st
  /\ (forall i, In i results ->
        _screenshots st1 !! stringByResolvingSymlinksInPath w i = Some SeenTrue)
  /\ process_screenshot w items st1 = (st1, inr tt).
Proof.
  intros Hincl. cbv zeta. rewrite initialize_screenshots_eq. simpl.
  repeat split.
  - intros i Hi. apply fold_seen_true_In, Hi.
  - apply process_screenshot_all_seen. intros i Hi. simpl.
    rewrite fold_seen_true_In by (apply Hincl, Hi). eexists. reflexivity.
Qed.

(** *** A screenshot listed twice in one update *)

Lemma process_screenshot_two (w : world) (i j : string) (st : app) :
  process_screenshot w [i; j] st =
  match process_screenshot_item w i st with
  | (st1, inl e) => (st1, inl e)
  | (st1, inr _) =>
      match process_screenshot_item w j st1 with
      | (st2, inl e) => (st2, inl e)
      | (st2, inr _) => (st2, inr tt)
      end
  end.
Proof.
  simpl. unfold bind, ret.
  destruct (process_screenshot_item w i st) as [st1 [e|[]]]; [reflexivity|].
  destruct (process_screenshot_item w j st1) as [st2 [e|[]]]; reflexivity.
Qed.

(** An update that lists the same screenshot twice has the effect of
    listing it once, up to log lines: the same recognition calls, registry,
    clipboard, notifications and outcome. *)
Theorem duplicate_item_processed_once (w : world) (item : string) (st : app) :
  let r2 := process_screenshot w [item; item] st in
  let r1 := process_screenshot w [item] st in
  recognition_calls (fst r2) = recognition_calls (fst r1)
  /\ _screenshots (fst r2) = _screenshots (fst r1)
  /\ pasteboard (fst r2) = pasteboard (fst r1)
  /\ notifications (fst r2) = notifications (fst r1)
  /\ snd r2 = snd r1.
Proof.
  cbv zeta. rewrite process_screenshot_two, process_screenshot_single.
  rewrite process_screenshot_item_eq. cbv zeta.
  set (path := stringByResolvingSymlinksInPath w item).
  destruct (_screenshots st !! path) as [v|] eqn:Hs.
  - rewrite process_screenshot_item_eq. cbv zeta. fold path. rewrite Hs.
    repeat split.
  - destruct (_paused st) eqn:Hp.
    + rewrite process_screenshot_item_eq. cbv zeta. fold path. simpl.
      rewrite lookup_insert_eq. repeat split.
    + destruct (imageWithContentsOfURL w path) as [img|] eqn:Hi.
      * destruct (process_image w img _) as [st2 [e|t]] eqn:Hpi;
          [repeat split|].
        destruct (notification_state (settings_of _));
        rewrite process_screenshot_item_eq; cbv zeta; fold path; simpl;
        rewrite lookup_insert_eq; repeat split.
      * rewrite process_screenshot_item_eq. cbv zeta. fold path. simpl.
        rewrite Hs, Hp, Hi. repeat split.
Qed.

(** *** The clipboard timer *)

Lemma bind_preserves {A B} (P : app -> Prop) (m : M A) (k : A -> M B) :
  preserves P m -> (forall a, preserves P (k a)) -> preserves P (bind m k).
Proof.
  intros Hm Hk st H. unfold bind. specialize (Hm st H).
  destruct (m st) as [st' [e|a]]; [exact Hm|]. apply Hk, Hm.
Qed.

Lemma log_tick_inv (s0 : settings) (msg : string) : preserves (tick_inv s0) (log msg).
Proof. intros st H. exact H. Qed.

Lemma notify_tick_inv (s0 : settings) (a b c : string) : preserves (tick_inv s0) (notify a b c).
Proof. intros st H. exact H. Qed.

Lemma get_tick_inv (s0 : settings) : preserves (tick_inv s0) get.
Proof. intros st H. exact H. Qed.

Lemma ret_tick_inv {A} (s0 : settings) (a : A) : preserves (tick_inv s0) (ret a).
Proof. intros st H. exact H. Qed.

Lemma process_image_tick_inv (s0 : settings) (w : world) (img : image) :
  preserves (tick_inv s0) (process_image w img).
Proof.
  intros st [Hs Hset]. destruct (process_image w img st) as [st' r] eqn:E. simpl.
  pose proof (process_image_frame w img st st' r E) as [Hf _].
  split; [|congruence].
  revert E. rewrite process_image_eq. cbv zeta.
  assert (Hp : pasteboard (after_recognition w img st) = pasteboard st)
    by (unfold after_recognition; destruct (vr_handler_error _); reflexivity).
  destruct (vr_success _); [destruct (truthy _); [destruct (_ || _)|]|];
    intros [= <- _]; [reflexivity|..]; unfold synced; rewrite Hp; exact Hs.
Qed.

Create HintDb tick.

#[local] Hint Resolve log_tick_inv notify_tick_inv get_tick_inv ret_tick_inv
  process_image_tick_inv : tick.

Ltac solve_tick :=
  repeat first [ solve [eauto with tick] | apply bind_preserves; [|intros ?] | case_match ].

Lemma process_clipboard_image_tick_inv (s0 : settings) (w : world) :
  preserves (tick_inv s0) (process_clipboard_image w).
Proof. unfold process_clipboard_image. solve_tick. Qed.

Lemma has_changed_result (p : Pasteboard.t) :
  synced (snd (Pasteboard.has_changed p))
  /\ Pasteboard.pasteboard (snd (Pasteboard.has_changed p)) = Pasteboard.pasteboard p.
Proof.
  unfold Pasteboard.has_changed, synced.
  destruct (Nat.eqb_spec (changeCount (Pasteboard.pasteboard p)) (Pasteboard._change_count p));
    simpl; auto.
Qed.

(** With clipboard detection on, a tick leaves the object in step with the
    pasteboard and the settings as they were. *)
Lemma clipboard_watcher_tick_inv (w : world) (st : app) :
  detect_clipboard_state (settings_of st) = true ->
  tick_inv (settings_of st) (fst (clipboard_watcher w st)).
Proof.
  intros Hd. unfold clipboard_watcher, bind at 1, get at 1. rewrite Hd. simpl.
  destruct (Pasteboard.has_changed (pasteboard st)) as [changed p] eqn:Hc.
  pose proof (has_changed_result (pasteboard st)) as [Hsy _]. rewrite Hc in Hsy.
  unfold bind at 1, modify at 1.
  assert (H0 : tick_inv (settings_of st) (set_pasteboard st p)) by (split; [exact Hsy|reflexivity]).
  revert H0. generalize (set_pasteboard st p). intros st1 H0.
  destruct (changed && Pasteboard.has_image p); [|exact H0].
  revert st1 H0. fold (preserves (tick_inv (settings_of st))
    (_ <- log "new image on clipboard" ;; st <- get ;;
     if _paused st then log "skipping clipboard image because app is paused"
     else process_clipboard_image w)).
  pose proof process_clipboard_image_tick_inv. solve_tick.
Qed.

Lemma set_pasteboard_same (st : app) : set_pasteboard st (pasteboard st) = st.
Proof. destruct st; reflexivity. Qed.

(** A tick does nothing when detection is off or no change is pending. *)
Lemma clipboard_watcher_noop (w : world) (st : app) :
  detect_clipboard_state (settings_of st) = false \/ synced (pasteboard st) ->
  clipboard_watcher w st = (st, inr tt).
Proof.
  intros H. unfold clipboard_watcher, bind, get, ret, modify.
  destruct (detect_clipboard_state (settings_of st)) eqn:Hd; [|reflexivity].
  destruct H as [H|H]; [discriminate|].
  rewrite (has_changed_synced _ H). simpl. rewrite set_pasteboard_same. reflexivity.
Qed.

(** Two timer ticks with no change by another process in between do what
    one tick does: each change of the pasteboard is handled at most once,
    and the app's own clipboard write is not picked up. *)
Theorem clipboard_tick_idempotent (w : world) (st : app) :
  let st1 := fst (clipboard_watcher w st) in
  clipboard_watcher w st1 = (st1, inr tt).
Proof.
  cbv zeta. destruct (detect_clipboard_state (settings_of st)) eqn:Hd.
  - pose proof (clipboard_watcher_tick_inv w st Hd) as [Hs _].
    apply clipboard_watcher_noop. right. exact Hs.
  - rewrite (clipboard_watcher_noop w st (or_introl Hd)). simpl.
    rewrite (clipboard_watcher_noop w st (or_introl Hd)). reflexivity.
Qed.

Lemma clipboard_watcher_paused (w : world) (st : app) :
  _paused st = true ->
  let st1 := fst (clipboard_watcher w st) in
  recognition_calls st1 = recognition_calls st
  /\ Pasteboard.pasteboard (pasteboard st1) = Pasteboard.pasteboard (pasteboard st)
  /\ _paused st1 = true /\ settings_of st1 = settings_of st
  /\ (detect_clipboard_state (settings_of st) = true -> synced (pasteboard st1)).
Proof.
  intros Hp. cbv zeta. unfold clipboard_watcher, bind, get, ret, modify, log.
  destruct (detect_clipboard_state (settings_of st)) eqn:Hd; simpl;
    [|repeat split; auto; intros; discriminate].
  pose proof (has_changed_result (pasteboard st)) as [Hsy Hpb].
  destruct (Pasteboard.has_changed (pasteboard st)) as [changed p]. simpl in *.
  destruct (changed && Pasteboard.has_image p); simpl; rewrite ?Hp; simpl;
    repeat split; auto.
Qed.

(** While the app is paused, a tick never calls the recognition backend
    and never writes the pasteboard; it still consumes the change, so an
    image copied during the pause is not processed after Resume either. *)
Theorem paused_clipboard_image_dropped (w : world) (st : app) :
  _paused st = true ->
  let st1 := fst (clipboard_watcher w st) in
  let st2 := fst (on_pause st1) in
  let st3 := fst (clipboard_watcher w st2) in
  _paused st3 = false
  /\ recognition_calls st3 = recognition_calls st
  /\ Pasteboard.pasteboard (pasteboard st3) = Pasteboard.pasteboard (pasteboard st).
Proof.
  intros Hp. cbv zeta.
  pose proof (clipboard_watcher_paused w st Hp) as (Hr & Hpb & Hp1 & Hs & Hsy).
  set (st1 := fst (clipboard_watcher w st)) in *.
  rewrite (clipboard_watcher_noop w (fst (on_pause st1))).
  - simpl. rewrite Hp1. repeat split; assumption.
  - simpl. rewrite Hs.
    destruct (detect_clipboard_state (settings_of st)) eqn:Hd; [right; apply Hsy; reflexivity|].
    left. reflexivity.
Qed.


(** *** The config file *)

Lemma state_in_value (sv : bool -> pyval) (so : pyval -> bool) (b : bool) :
  state_in so (sv true) = true -> state_in so (sv false) = false ->
  state_in so (sv b) = b.
Proof. destruct b; auto. Qed.

(** A missing, malformed or empty config file gives the documented
    defaults: threshold LOW, keep linebreaks, no append, notifications on,
    the current language, always detect English, clipboard detection on,
    no QR codes, no confirmation, no start on login, no debug. *)
Theorem load_config_defaults (sv : bool -> pyval) (so : pyval -> bool)
    (lo : pyval -> string) (pr : prefs) :
  let r := load_config sv so lo None pr in
  load_config sv so lo (Some ∅) pr = r
  /\ snd r = inr tt
  /\ pr_settings (fst r)
     = mk_settings true false false (recognition_language (pr_settings pr))
         true true false true true false false
  /\ pr_start_on_login (fst r) = false
  /\ pr_debug (fst r) = PyBool false.
Proof. cbv zeta. split; [reflexivity|]. vm_compute. repeat split. Qed.

Lemma save_config_lookup (sv : bool -> pyval) (pr : prefs) :
  let cfg := pr_config (save_config sv pr) in
  let s := pr_settings pr in
  cfg !! "linebreaks" = Some (sv (linebreaks_state s))
  /\ cfg !! "append" = Some (sv (append_state s))
  /\ cfg !! "notification" = Some (sv (notification_state s))
  /\ cfg !! "confidence" = Some (PyStr (confidence_name (get_confidence_state s)))
  /\ cfg !! "language" = Some (PyStr (recognition_language s))
  /\ cfg !! "always_detect_english" = Some (sv (language_english_state s))
  /\ cfg !! "detect_clipboard" = Some (sv (detect_clipboard_state s))
  /\ cfg !! "confirmation" = Some (sv (confirmation_state s))
  /\ cfg !! "detect_qrcodes" = Some (sv (qrcodes_state s))
  /\ cfg !! "debug" = Some (pr_debug pr)
  /\ cfg !! "start_on_login" = Some (sv (pr_start_on_login pr)).
Proof.
  cbv zeta. unfold save_config. cbn [pr_config pr_settings pr_debug pr_start_on_login].
  repeat split; repeat (rewrite lookup_insert_ne by discriminate); apply lookup_insert_eq.
Qed.

(** What [save_config] writes, [load_config] reads back: after a restart
    the threshold, the language, every menu state and the debug flag are
    as they were saved. *)
Theorem config_round_trip (sv : bool -> pyval) (so : pyval -> bool) (lo : pyval -> string)
    (pr pr0 : prefs) :
  state_in so (sv true) = true -> state_in so (sv false) = false ->
  let r := load_config sv so lo (Some (pr_config (save_config sv pr))) pr0 in
  snd r = inr tt /\ prefs_view (fst r) = prefs_view pr.
Proof.
  intros Ht Hf. cbv zeta.
  pose proof (save_config_lookup sv pr) as
    (H1 & H2 & H3 & H4 & H5 & H6 & H7 & H8 & H9 & H10 & H11). cbv zeta in *.
  set (cfg := pr_config (save_config sv pr)) in *.
  assert (Hne : cfg <> ∅) by (intros E; rewrite E, lookup_empty in H1; discriminate).
  unfold load_config. rewrite (decide_False _ _ Hne).
  unfold config_get. rewrite H1, H2, H3, H4, H5, H6, H7, H8, H9, H10, H11.
  rewrite !(state_in_value sv so _ Ht Hf).
  destruct (get_confidence_state (pr_settings pr)) eqn:Ec; simpl;
    (split; [reflexivity|]); unfold prefs_view; simpl; rewrite Ec; reflexivity.
Qed.

(** A config file whose "confidence" is not "LOW", "MEDIUM" or "HIGH"
    (say "low") makes [load_config] raise ValueError, so [__init__] fails;
    the config is not saved back, and no threshold is left checked. *)
Theorem load_config_unknown_confidence (sv : bool -> pyval) (so : pyval -> bool)
    (lo : pyval -> string) (cfg : plist) (v : pyval) (pr : prefs) :
  cfg !! "confidence" = Some v ->
  is_confidence_name v = false ->
  let r := load_config sv so lo (Some cfg) pr in
  (exists msg, snd r = inl (ValueError msg))
  /\ pr_config (fst r) = cfg
  /\ confidence_low_state (pr_settings (fst r)) = false
  /\ confidence_medium_state (pr_settings (fst r)) = false
  /\ confidence_high_state (pr_settings (fst r)) = false.
Proof.
  intros Hc Hv. cbv zeta.
  assert (Hne : cfg <> ∅) by (intros E; rewrite E, lookup_empty in Hc; discriminate).
  unfold load_config. rewrite (decide_False _ _ Hne).
  assert (Hg : config_get cfg "confidence" (PyStr (confidence_name CONFIDENCE_DEFAULT)) = v)
    by (unfold config_get; rewrite Hc; reflexivity).
  rewrite Hg.
  unfold is_confidence_name in Hv.
  apply orb_false_elim in Hv as [Hv H3]. apply orb_false_elim in Hv as [H1 H2].
  unfold set_confidence_state. rewrite H1, H2, H3. simpl.
  repeat split. eexists. reflexivity.
Qed.


(** *** Concrete instances *)

Lemma linebreaks_off_no_newline_witness :
  let w := Sample.world_of [("a", 9 # 10); ("b", 9 # 10)] [] in
  let st := mk_app (mk_settings true false false "en-US" true true false true false false false)
              false ∅ Sample.empty_pb [] [] [] in
  process_image w 1%nat st = (fst (process_image w 1%nat st), inr "a b")
  /\ linebreaks_state (settings_of st) = false
  /\ (forall n, String.get n "a b" <> Some nl_char)
  /\ String.length "a b"
     = String.length (pre_text w 1%nat (settings_of st) (recognized w 1%nat (settings_of st))).
Proof.
  cbv zeta.
  match goal with |- ?A /\ ?B /\ _ =>
    assert (H1 : A) by (vm_compute; reflexivity); assert (H2 : B) by reflexivity end.
  split; [exact H1|]. split; [exact H2|].
  exact (linebreaks_off_no_newline _ _ _ _ _ H1 H2).
Defined.

Lemma set_confidence_state_unknown_witness :
  is_confidence_name (PyStr "low") = false
  /\ (let (s', r) := set_confidence_state Sample.settings0 (PyStr "low") in
      (exists msg, r = inl (ValueError msg))
      /\ confidence_low_state s' = false /\ confidence_medium_state s' = false
      /\ confidence_high_state s' = false /\ get_confidence_state s' = LOW).
Proof.
  split; [reflexivity|].
  exact (set_confidence_state_unknown Sample.settings0 (PyStr "low") eq_refl).
Defined.

Lemma mac_os_version_arity_witness :
  length (split_on "." "") <> 2%nat /\ length (split_on "." "") <> 3%nat
  /\ exists msg, get_mac_os_version decimal_int "" = inl (ValueError msg).
Proof.
  assert (H2 : length (split_on "." "") <> 2%nat) by (simpl; lia).
  assert (H3 : length (split_on "." "") <> 3%nat) by (simpl; lia).
  split; [exact H2|]. split; [exact H3|].
  exact (mac_os_version_arity decimal_int "" H2 H3).
Defined.

Lemma mac_os_version_big_sur_witness :
  (split_on "." "10.16" = ["10"; "16"] \/ split_on "." "10.16" = ["10"; "16"; "0"])
  /\ decimal_int "16" = Some 16%Z /\ (16 <= 16)%Z
  /\ exists v, get_mac_os_version decimal_int "10.16" = inr v
  /\ fst (fst v) = pretty (16 - 5)%Z
  /\ fst (fst v) <> "10"
  /\ (split_on "." "10.16" = ["10"; "16"] -> snd (fst v) = "0")
  /\ (split_on "." "10.16" = ["10"; "16"; "0"] -> snd (fst v) = "0")
  /\ snd v = "0".
Proof.
  assert (Hs : split_on "." "10.16" = ["10"; "16"] \/ split_on "." "10.16" = ["10"; "16"; "0"])
    by (left; reflexivity).
  assert (Hm : decimal_int "16" = Some 16%Z) by reflexivity.
  assert (Hle : (16 <= 16)%Z) by lia.
  split; [exact Hs|]. split; [exact Hm|]. split; [exact Hle|].
  exact (mac_os_version_big_sur decimal_int "10.16" "16" "0" 16%Z Hs Hm Hle).
Defined.

Lemma mac_os_version_passthrough_witness :
  ("10" <> "10" \/ exists m, decimal_int "15" = Some m /\ (m < 16)%Z)
  /\ (split_on "." "10.15.7" = ["10"; "15"] ->
      get_mac_os_version decimal_int "10.15.7" = inr ("10", "15", "0"))
  /\ (split_on "." "10.15.7" = ["10"; "15"; "7"] ->
      get_mac_os_version decimal_int "10.15.7" = inr ("10", "15", "7")).
Proof.
  assert (H : "10" <> "10" \/ exists m, decimal_int "15" = Some m /\ (m < 16)%Z)
    by (right; exists 15%Z; split; [reflexivity|lia]).
  split; [exact H|].
  exact (mac_os_version_passthrough decimal_int "10.15.7" "10" "15" "7" H).
Defined.

Lemma startup_screenshots_never_processed_witness :
  let w := Sample.world_of Sample.hello_world [] in
  (forall i, In i ["/b.png"] -> In i ["/a.png"; "/b.png"])
  /\ (let st1 := fst (initialize_screenshots w ["/a.png"; "/b.png"] Sample.app0) in
      snd (initialize_screenshots w ["/a.png"; "/b.png"] Sample.app0) = inr tt
      /\ pasteboard st1 = pasteboard Sample.app0
      /\ recognition_calls st1 = recognition_calls Sample.app0
      /\ (forall i, In i ["/a.png"; "/b.png"] ->
            _screenshots st1 !! stringByResolvingSymlinksInPath w i = Some SeenTrue)
      /\ process_screenshot w ["/b.png"] st1 = (st1, inr tt)).
Proof.
  cbv zeta.
  assert (H : forall i, In i ["/b.png"] -> In i ["/a.png"; "/b.png"])
    by (intros i [<-|[]]; simpl; auto).
  split; [exact H|].
  exact (startup_screenshots_never_processed _ _ _ Sample.app0 H).
Defined.

Lemma paused_clipboard_image_dropped_witness :
  let st := set_paused Sample.clip_app true in
  let w := Sample.world_B in
  _paused st = true
  /\ (let st1 := fst (clipboard_watcher w st) in
      let st2 := fst (on_pause st1) in
      let st3 := fst (clipboard_watcher w st2) in
      _paused st3 = false
      /\ recognition_calls st3 = recognition_calls st
      /\ Pasteboard.pasteboard (pasteboard st3) = Pasteboard.pasteboard (pasteboard st)).
Proof.
  cbv zeta. assert (H : _paused (set_paused Sample.clip_app true) = true) by reflexivity.
  split; [exact H|]. exact (paused_clipboard_image_dropped _ _ H).
Defined.


Lemma config_round_trip_witness :
  let pr := mk_prefs (mk_settings false false true "de-DE" false true true false false true true)
              true (PyBool true) ∅ in
  let pr0 := mk_prefs Sample.settings0 false (PyBool false) ∅ in
  state_in sample_state_of_other (sample_state_value true) = true
  /\ state_in sample_state_of_other (sample_state_value false) = false
  /\ (let r := load_config sample_state_value sample_state_of_other (fun _ => "")
                 (Some (pr_config (save_config sample_state_value pr))) pr0 in
      snd r = inr tt /\ prefs_view (fst r) = prefs_view pr).
Proof.
  cbv zeta.
  assert (Ht : state_in sample_state_of_other (sample_state_value true) = true) by reflexivity.
  assert (Hf : state_in sample_state_of_other (sample_state_value false) = false) by reflexivity.
  split; [exact Ht|]. split; [exact Hf|].
  exact (config_round_trip _ _ _ _ _ Ht Hf).
Defined.

Lemma load_config_unknown_confidence_witness :
  let cfg : plist := {[ "confidence" := PyStr "low" ]} in
  let pr := mk_prefs Sample.settings0 false (PyBool false) ∅ in
  cfg !! "confidence" = Some (PyStr "low")
  /\ is_confidence_name (PyStr "low") = false
  /\ (let r := load_config sample_state_value sample_state_of_other (fun _ => "") (Some cfg) pr in
      (exists msg, snd r = inl (ValueError msg))
      /\ pr_config (fst r) = cfg
      /\ confidence_low_state (pr_settings (fst r)) = false
      /\ confidence_medium_state (pr_settings (fst r)) = false
      /\ confidence_high_state (pr_settings (fst r)) = false).
Proof.
  cbv zeta.
  assert (Hc : ({[ "confidence" := PyStr "low" ]} : plist) !! "confidence" = Some (PyStr "low"))
    by reflexivity.
  assert (Hv : is_confidence_name (PyStr "low") = false) by reflexivity.
  split; [exact Hc|]. split; [exact Hv|].
  exact (load_config_unknown_confidence _ _ _ _ _ _ Hc Hv).
Defined.
